(** * Global click coordinator of the heritage map

    Shallow embedding of the hook [useGlobalClick]: the feature query
    adapter [queryInteractiveFeatures], the click handler
    [handleGlobalClick] and the deferred registration effect with its
    cleanup.

    JavaScript numbers are IEEE 754 binary64 values and are modelled by
    Rocq's primitive floats; [undefined] and [null] are [None]; every call
    into a collaborator that the outside can observe is appended to a
    trace. *)

From Stdlib Require Import List String Bool Arith.
From Stdlib Require Import PrimFloat.
From Stdlib Require Import SpecFloat FloatOps FloatAxioms.
Import ListNotations.

Local Open Scope string_scope.
Local Open Scope list_scope.

Set Implicit Arguments.

(** ** A state monad with exceptions

    A computation over a store [S] either returns a value or throws; both
    outcomes carry the store as it was left. *)

Module Eff.

Inductive Outcome (E A : Type) : Type :=
| Returned (a : A)
| Thrown (err : E).

Arguments Returned {E A} a.
Arguments Thrown {E A} err.

Definition M (S E A : Type) : Type := S -> Outcome E A * S.

Definition ret {S E A} (a : A) : M S E A := fun s => (Returned a, s).

Definition bind {S E A B} (m : M S E A) (k : A -> M S E B) : M S E B :=
  fun s =>
    match m s with
    | (Returned a, s') => k a s'
    | (Thrown err, s') => (Thrown err, s')
    end.

Definition throw {S E A} (err : E) : M S E A := fun s => (Thrown err, s).

(** [try { body } catch (error) { handler error }] *)
Definition try_catch {S E A} (body : M S E A) (handler : E -> M S E A)
  : M S E A :=
  fun s =>
    match body s with
    | (Returned a, s') => (Returned a, s')
    | (Thrown err, s') => handler err s'
    end.

Definition get {S E} : M S E S := fun s => (Returned s, s).
Definition modify {S E} (f : S -> S) : M S E unit :=
  fun s => (Returned tt, f s).

End Eff.

Import Eff.

Declare Scope eff_scope.
Delimit Scope eff_scope with eff.
Notation "x <- m ;; k" := (bind m (fun x => k))
  (at level 61, m at next level, right associativity) : eff_scope.
Notation "m ;;; k" := (bind m (fun _ => k))
  (at level 61, right associativity) : eff_scope.

(** ** Data model *)

(** A JavaScript number. *)
Definition number : Type := float.

(** A GeoJSON position, and the GeoJSON geometries, a union tagged by
    their [type]: "Point", "MultiPoint", "LineString", ... *)
Definition Position : Type := list number.

#[warnings="-register-all"]
Inductive Geometry : Type :=
| Geom_Point (coordinates : Position)
| Geom_MultiPoint (coordinates : list Position)
| Geom_LineString (coordinates : list Position)
| Geom_MultiLineString (coordinates : list (list Position))
| Geom_Polygon (coordinates : list (list Position))
| Geom_MultiPolygon (coordinates : list (list (list Position)))
| Geom_GeometryCollection (geometries : list Geometry).

Record Layer : Type := { id : string }.

Record Point : Type := { x : number; y : number }.
Record LngLat : Type := { lng : number; lat : number }.

(** The native DOM event behind a map event. *)
Record MouseEvent : Type := { button : nat }.

Record MapMouseEvent : Type := {
  point : Point;
  lngLat : LngLat;
  originalEvent : option MouseEvent
}.

Record PanelState : Type := {
  isOpen : bool;
  isFullscreen : bool;
  showOverview : bool
}.

(** The argument of [usePanelStore.setState]: the fields to overwrite. *)
Record PanelPatch : Type := {
  patch_isOpen : option bool;
  patch_isFullscreen : option bool;
  patch_showOverview : option bool
}.

Definition merge_field (old : bool) (new : option bool) : bool :=
  match new with Some b => b | None => old end.

Definition apply_patch (p : PanelPatch) (st : PanelState) : PanelState :=
  {| isOpen := merge_field (isOpen st) (patch_isOpen p);
     isFullscreen := merge_field (isFullscreen st) (patch_isFullscreen p);
     showOverview := merge_field (showOverview st) (patch_showOverview p) |}.

(** ** The click handler *)

Section Coordinator.

(** The properties of a rendered feature and the category-specific fields
    of a [LocationInfo] are declared outside the hook's file; the hook
    never looks into them. *)
Variable Properties : Type.
Variable Metadata : Type.

Record Feature : Type := {
  layer : option Layer;
  geometry : option Geometry;
  properties : Properties
}.

Record LocationInfo : Type := {
  coordinates : option Position;
  metadata : Metadata
}.

(** [locationInfo.coordinates = c] *)
Definition set_coordinates (info : LocationInfo) (c : Position)
  : LocationInfo :=
  {| coordinates := Some c; metadata := metadata info |}.

(** The calls the handler makes into its collaborators, in the order of
    [trace]. *)
Inductive Effect : Type :=
| PanelSetState (patch : PanelPatch)
| QueryRenderedFeatures (pt : Point) (layers : list string)
| PreventDefault
| OriginalPreventDefault
| OriginalStopPropagation
| OriginalStopImmediatePropagation
| GetBuildingLocationInfo (feature : Feature)
| GetHistoricalLocationInfo (feature : Feature)
| ConsoleWarn (message : string) (layerId : string)
| ShowDetailedInfo (info : LocationInfo).

(** What a click can change: the process-wide panel store, and the calls
    made so far. *)
Record Store : Type := {
  panel : PanelState;
  trace : list Effect
}.

(** The map as a click sees it. *)
Record MapInstance : Type := {
  isStyleLoaded : bool;
  getZoom : number;
  queryRenderedFeatures : Point -> list string -> list Feature
}.

(** The detail callback is the caller's code: it is handed the record and
    may itself write the panel store. *)
Definition DetailCallback : Type := LocationInfo -> PanelState -> PanelState.

Record GlobalClickProps : Type := {
  mapInstance : option MapInstance;
  onShowDetailedInfo : option DetailCallback;
  minZoomLevel : option number
}.

(** The imports of the hook's file: the zoom policy, the two layer
    registries and the two extractors.  [getInteractionLayerIds] is called
    afresh at each use; within one click it is taken to answer the same
    list. *)
Record Imports : Type := {
  canInteract : number -> string -> bool;
  unclusteredLayerIds : list string;
  getInteractionLayerIds : unit -> list string;
  getBuildingLocationInfo : Feature -> LocationInfo;
  getHistoricalLocationInfo : Feature -> LocationInfo
}.

Definition Click (A : Type) : Type := M Store string A.

Definition log (ev : Effect) : Click unit :=
  modify (fun s => {| panel := panel s; trace := trace s ++ [ev] |}).

Definition usePanelStore_getState : Click PanelState :=
  bind get (fun s => ret (panel s)).

Definition usePanelStore_setState (p : PanelPatch) : Click unit :=
  bind (log (PanelSetState p)) (fun _ =>
  modify (fun s => {| panel := apply_patch p (panel s); trace := trace s |})).

(** [o?.method()] *)
Definition optional_call {A} (o : option A) (ev : Effect) : Click unit :=
  match o with
  | Some _ => log ev
  | None => ret tt
  end.

(** lodash [includes] on an array of strings. *)
Definition includes (l : list string) (v : string) : bool :=
  existsb (String.eqb v) l.

Variable props : GlobalClickProps.
Variable imports : Imports.

(** [minZoomLevel = 17] in the destructured parameter. *)
Definition minZoomLevel_or_default : number :=
  match minZoomLevel props with
  | Some z => z
  | None => 17%float
  end.

Local Open Scope eff_scope.

(** The adapter returns the empty array when no layer is interactive, and
    what [mapInstance?.queryRenderedFeatures] evaluates to otherwise:
    [undefined] without a map. *)
Definition queryInteractiveFeatures (pt : Point)
  : Click (option (list Feature)) :=
  let interactiveLayerIds :=
    unclusteredLayerIds imports ++ getInteractionLayerIds imports tt in
  if Nat.eqb (List.length interactiveLayerIds) 0 then ret (Some [])
  else
    match mapInstance props with
    | None => ret None
    | Some m =>
        log (QueryRenderedFeatures pt interactiveLayerIds) ;;;
        ret (Some (queryRenderedFeatures m pt interactiveLayerIds))
    end.

(** The handler returns [undefined] ([None]) where the source falls off
    its end or has a bare [return], and [false] where it says so.  The
    condition [if (layerId)] holds for a string that is present and not
    empty. *)
Definition handleGlobalClick (e : MapMouseEvent) : Click (option bool) :=
  match mapInstance props, onShowDetailedInfo props with
  | Some m, Some callback =>
    if negb (isStyleLoaded m) then ret None
    else
      let currentZoom := getZoom m in
      if negb (canInteract imports currentZoom "minZoomForLabelClicks")
         || PrimFloat.leb currentZoom minZoomLevel_or_default
      then ret None
      else
        panelStore <- usePanelStore_getState ;;
        if isOpen panelStore && negb (isFullscreen panelStore) then
          usePanelStore_setState
            {| patch_isOpen := None;
               patch_isFullscreen := Some true;
               patch_showOverview := Some true |} ;;;
          ret (Some false)
        else
          interactiveFeatures <- queryInteractiveFeatures (point e) ;;
          match interactiveFeatures with
          | None | Some [] => ret None
          | Some (feature :: _) =>
            match option_map id (layer feature) with
            | None => ret None
            | Some layerId =>
              if String.eqb layerId "" then ret None
              else
                log PreventDefault ;;;
                optional_call (originalEvent e) OriginalPreventDefault ;;;
                optional_call (originalEvent e) OriginalStopPropagation ;;;
                optional_call (originalEvent e)
                  OriginalStopImmediatePropagation ;;;
                let coords :=
                  match geometry feature with
                  | Some (Geom_Point c) => c
                  | _ => [lng (lngLat e); lat (lngLat e)]
                  end in
                locationInfo <-
                  (if includes (unclusteredLayerIds imports) layerId then
                     log (GetBuildingLocationInfo feature) ;;;
                     ret (Some (getBuildingLocationInfo imports feature))
                   else if includes (getInteractionLayerIds imports tt)
                                    layerId then
                     log (GetHistoricalLocationInfo feature) ;;;
                     ret (Some (getHistoricalLocationInfo imports feature))
                   else
                     log (ConsoleWarn "图层ID不再交互范围内:"
                                      layerId) ;;;
                     ret None) ;;
                match locationInfo with
                | None => ret (Some false)
                | Some info =>
                  let info' := set_coordinates info coords in
                  log (ShowDetailedInfo info') ;;;
                  modify (fun s => {| panel := callback info' (panel s);
                                      trace := trace s |}) ;;;
                  ret (Some false)
                end
            end
          end
  | _, _ => ret None
  end.

(** *** Observing one click

    A click is run on the panel store as it stands, with an empty trace:
    what it returns, the panel store it leaves and the calls it made. *)

Definition runClick (e : MapMouseEvent) (st : PanelState) :=
  handleGlobalClick e {| panel := st; trace := [] |}.

Definition clickReturn (e : MapMouseEvent) (st : PanelState)
  : Outcome string (option bool) := fst (runClick e st).

Definition clickPanel (e : MapMouseEvent) (st : PanelState) : PanelState :=
  panel (snd (runClick e st)).

Definition clickEffects (e : MapMouseEvent) (st : PanelState) : list Effect :=
  trace (snd (runClick e st)).

Definition is_query (ev : Effect) : bool :=
  match ev with QueryRenderedFeatures _ _ => true | _ => false end.

Definition is_callback (ev : Effect) : bool :=
  match ev with ShowDetailedInfo _ => true | _ => false end.

Definition is_store_write (ev : Effect) : bool :=
  match ev with PanelSetState _ => true | _ => false end.

Definition is_warning (ev : Effect) : bool :=
  match ev with ConsoleWarn _ _ => true | _ => false end.

(** The calls that claim the event. *)
Definition is_claim (ev : Effect) : bool :=
  match ev with
  | PreventDefault | OriginalPreventDefault | OriginalStopPropagation
  | OriginalStopImmediatePropagation => true
  | _ => false
  end.

(** The partial state the handler writes to expand the panel. *)
Definition expandPatch : PanelPatch :=
  {| patch_isOpen := None;
     patch_isFullscreen := Some true;
     patch_showOverview := Some true |}.

(** The calls on the native event, made only when the map event carries
    one. *)
Definition nativeClaims (e : MapMouseEvent) : list Effect :=
  match originalEvent e with
  | Some _ => [OriginalPreventDefault; OriginalStopPropagation;
               OriginalStopImmediatePropagation]
  | None => []
  end.

(** The layer ids handed to the spatial query. *)
Definition interactiveLayerIds : list string :=
  unclusteredLayerIds imports ++ getInteractionLayerIds imports tt.

(** The zoom gate lets the click through. *)
Definition zoomQualifies (m : MapInstance) : bool :=
  canInteract imports (getZoom m) "minZoomForLabelClicks"
  && negb (PrimFloat.leb (getZoom m) minZoomLevel_or_default).

(** The click passes every guard that stands before the feature query:
    map and callback configured, style loaded, zoom gate, and no panel
    waiting to be expanded. *)
Definition reachesFeatureQuery (st : PanelState) : bool :=
  match mapInstance props, onShowDetailedInfo props with
  | Some m, Some _ =>
      isStyleLoaded m && zoomQualifies m
      && negb (isOpen st && negb (isFullscreen st))
  | _, _ => false
  end.

(** The handler's own test for "nothing interactive here":
    [!interactiveFeatures || interactiveFeatures.length === 0]. *)
Definition isEmptyResult (r : option (list Feature)) : bool :=
  match r with
  | None | Some [] => true
  | Some (_ :: _) => false
  end.

(** The first feature the adapter returns for the click point. *)
Definition topmostFeature (e : MapMouseEvent) : option Feature :=
  match fst (queryInteractiveFeatures (point e)
               {| panel := {| isOpen := false; isFullscreen := false;
                              showOverview := false |};
                  trace := [] |}) with
  | Returned (Some (feature :: _)) => Some feature
  | _ => None
  end.

(** The coordinates shown for a feature: those of its point geometry, else
    where the click fell. *)
Definition displayCoordinates (feature : Feature) (e : MapMouseEvent)
  : Position :=
  match geometry feature with
  | Some (Geom_Point c) => c
  | _ => [lng (lngLat e); lat (lngLat e)]
  end.

(** The branches of the handler, as the steps of its description name
    them. *)
Inductive Branch : Type :=
| NoMapOrCallback
| StyleNotLoaded
| ZoomGateFailed
| PanelExpand
| NoFeature
| NoLayerId
| UnclassifiedLayer
| Success.

Definition branch_of (e : MapMouseEvent) (st : PanelState) : Branch :=
  match mapInstance props, onShowDetailedInfo props with
  | Some m, Some _ =>
      if negb (isStyleLoaded m) then StyleNotLoaded
      else if negb (zoomQualifies m) then ZoomGateFailed
      else if isOpen st && negb (isFullscreen st) then PanelExpand
      else
        match topmostFeature e with
        | None => NoFeature
        | Some feature =>
            match layer feature with
            | None => NoLayerId
            | Some lyr =>
                if String.eqb (id lyr) "" then NoLayerId
                else if includes (unclusteredLayerIds imports) (id lyr)
                then Success
                else if includes (getInteractionLayerIds imports tt) (id lyr)
                then Success
                else UnclassifiedLayer
            end
        end
  | _, _ => NoMapOrCallback
  end.

(** The handled signal of a branch: [false] on three of them, [undefined]
    on the others. *)
Definition handledSignal (b : Branch) : option bool :=
  match b with
  | PanelExpand | UnclassifiedLayer | Success => Some false
  | _ => None
  end.

End Coordinator.

(** ** Deferred registration and teardown

    The effect of [useGlobalClick] and its cleanup, run against the
    listener tables of the map instances.  A click handler is a closure:
    whenever one of its dependencies changes, React hands the effect a new
    one, so handlers are told apart by a number.  With the map unchanged
    the effect runs again only because the handler is a new one. *)

Module Registration.

Definition Handler : Type := nat.
Definition MapRef : Type := nat.

Inductive ConsoleEntry : Type :=
| ConsoleLog (message : string)
| ConsoleWarn (message : string) (error : string).

(** The listener tables of one map.  [on] ignores a listener that is
    already in the table of its event, [once] listeners are dropped as they
    fire, and [off] removes a listener, unless it throws ([offThrows]). *)
Record MapState : Type := {
  isStyleLoaded : bool;
  clickListeners : list Handler;
  styleLoadOnce : list Handler;
  offThrows : option string
}.

(** The ref [hasRegisteredRef] of the one coordinator, the maps, and the
    console. *)
Record World : Type := {
  hasRegisteredRef : bool;
  maps : MapRef -> MapState;
  console : list ConsoleEntry
}.

Definition Reg (A : Type) : Type := M World string A.

Definition update_map (m : MapRef) (f : MapState -> MapState) (w : World)
  : World :=
  {| hasRegisteredRef := hasRegisteredRef w;
     maps := fun m' => if Nat.eqb m' m then f (maps w m') else maps w m';
     console := console w |}.

Definition set_hasRegisteredRef (b : bool) : Reg unit :=
  modify (fun w => {| hasRegisteredRef := b;
                      maps := maps w;
                      console := console w |}).

Definition console_write (entry : ConsoleEntry) : Reg unit :=
  modify (fun w => {| hasRegisteredRef := hasRegisteredRef w;
                      maps := maps w;
                      console := console w ++ [entry] |}).

Definition add_listener (h : Handler) (l : list Handler) : list Handler :=
  if existsb (Nat.eqb h) l then l else l ++ [h].

Definition remove_listener (h : Handler) (l : list Handler) : list Handler :=
  filter (fun h' => negb (Nat.eqb h' h)) l.

(** [mapInstance.on("click", handler)] *)
Definition on_click (m : MapRef) (h : Handler) : Reg unit :=
  modify (update_map m (fun st =>
    {| isStyleLoaded := isStyleLoaded st;
       clickListeners := add_listener h (clickListeners st);
       styleLoadOnce := styleLoadOnce st;
       offThrows := offThrows st |})).

(** [mapInstance.once("style.load", () => { ... handler ... })]: the
    callback is kept as the handler it closes over. *)
Definition once_style_load (m : MapRef) (h : Handler) : Reg unit :=
  modify (update_map m (fun st =>
    {| isStyleLoaded := isStyleLoaded st;
       clickListeners := clickListeners st;
       styleLoadOnce := styleLoadOnce st ++ [h];
       offThrows := offThrows st |})).

(** [mapInstance.off("click", handler)] *)
Definition off_click (m : MapRef) (h : Handler) : Reg unit :=
  bind get (fun w =>
    match offThrows (maps w m) with
    | Some err => throw err
    | None =>
        modify (update_map m (fun st =>
          {| isStyleLoaded := isStyleLoaded st;
             clickListeners := remove_listener h (clickListeners st);
             styleLoadOnce := styleLoadOnce st;
             offThrows := offThrows st |}))
    end).

Local Open Scope eff_scope.

(** The body of the callback handed to [once("style.load", ...)]. *)
Definition styleLoadCallback (m : MapRef) (h : Handler) : Reg unit :=
  on_click m h ;;;
  set_hasRegisteredRef true.

Definition registerEvents (m : MapRef) (h : Handler) : Reg unit :=
  w <- get ;;
  if isStyleLoaded (maps w m) then
    on_click m h ;;;
    set_hasRegisteredRef true
  else
    once_style_load m h.

(** The cleanup function returned by the effect; it closes over the map
    and the handler of its own run. *)
Definition cleanup (m : MapRef) (h : Handler) : Reg unit :=
  w <- get ;;
  (if hasRegisteredRef w then
     try_catch
       (off_click m h ;;;
        console_write (ConsoleLog "🧹 已清理全局标签交互事件"))
       (fun error =>
          console_write (ConsoleWarn "清理全局事件监听器失败:" error))
   else ret tt) ;;;
  set_hasRegisteredRef false.

(** The effect: it returns the closure of its cleanup, or nothing when it
    returns early. *)
Definition effect (mapInstance : option MapRef) (h : Handler)
  : Reg (option (MapRef * Handler)) :=
  w <- get ;;
  match mapInstance with
  | None => ret None
  | Some m =>
      if hasRegisteredRef w then ret None
      else
        registerEvents m h ;;;
        ret (Some (m, h))
  end.

(** The map fires "style.load": the style is loaded, and the one-shot
    callbacks run in the order of their subscription, each removed from
    the table. *)
Fixpoint run_callbacks (m : MapRef) (pending : list Handler) : Reg unit :=
  match pending with
  | [] => ret tt
  | h :: rest => styleLoadCallback m h ;;; run_callbacks m rest
  end.

Definition fire_style_load (m : MapRef) : Reg unit :=
  w <- get ;;
  let pending := styleLoadOnce (maps w m) in
  modify (update_map m (fun st =>
    {| isStyleLoaded := true;
       clickListeners := clickListeners st;
       styleLoadOnce := [];
       offThrows := offThrows st |})) ;;;
  run_callbacks m pending.

(** What React does with the effect.  A render whose dependencies
    [mapInstance, handleGlobalClick] differ from the previous ones runs
    the pending cleanup and then the effect anew; unmounting runs the
    pending cleanup. *)
Record Component : Type := {
  deps : option (option MapRef * Handler);
  pendingCleanup : option (MapRef * Handler)
}.

Definition run_pending (c : Component) : Reg unit :=
  match pendingCleanup c with
  | Some (m, h) => cleanup m h
  | None => ret tt
  end.

Definition same_deps (d1 d2 : option MapRef * Handler) : bool :=
  match fst d1, fst d2 with
  | Some m1, Some m2 => Nat.eqb m1 m2
  | None, None => true
  | _, _ => false
  end && Nat.eqb (snd d1) (snd d2).

Definition render (mapInstance : option MapRef) (h : Handler)
  (c : Component) : Reg Component :=
  let unchanged :=
    match deps c with
    | Some d => same_deps d (mapInstance, h)
    | None => false
    end in
  if unchanged then ret c
  else
    run_pending c ;;;
    next <- effect mapInstance h ;;
    ret {| deps := Some (mapInstance, h); pendingCleanup := next |}.

Definition unmount (c : Component) : Reg Component :=
  run_pending c ;;;
  ret {| deps := None; pendingCleanup := None |}.

Inductive Step : Type :=
| Render (mapInstance : option MapRef) (h : Handler)
| Unmount
| StyleLoad (m : MapRef).

Definition step (st : Step) (c : Component) : Reg Component :=
  match st with
  | Render mapInstance h => render mapInstance h c
  | Unmount => unmount c
  | StyleLoad m => fire_style_load m ;;; ret c
  end.

Fixpoint run (steps : list Step) (c : Component) : Reg Component :=
  match steps with
  | [] => ret c
  | st :: rest => c' <- step st c ;; run rest c'
  end.

Definition unmounted : Component := {| deps := None; pendingCleanup := None |}.

(** A world whose maps have no listener yet and whose style is still
    loading, and one whose maps are ready but refuse to detach. *)
Definition loadingWorld : World :=
  {| hasRegisteredRef := false;
     maps := fun _ => {| isStyleLoaded := false;
                         clickListeners := [];
                         styleLoadOnce := [];
                         offThrows := None |};
     console := [] |}.

Definition stubbornWorld : World :=
  {| hasRegisteredRef := true;
     maps := fun _ => {| isStyleLoaded := true;
                         clickListeners := [1];
                         styleLoadOnce := [];
                         offThrows := Some "map was removed" |};
     console := [] |}.

End Registration.

Arguments nativeClaims {Properties Metadata} e.
Arguments PreventDefault {Properties Metadata}.
Arguments OriginalPreventDefault {Properties Metadata}.
Arguments OriginalStopPropagation {Properties Metadata}.
Arguments OriginalStopImmediatePropagation {Properties Metadata}.
Arguments PanelSetState {Properties Metadata} patch.
Arguments QueryRenderedFeatures {Properties Metadata} pt layers.
Arguments ConsoleWarn {Properties Metadata} message layerId.
Arguments GetBuildingLocationInfo {Properties Metadata} feature.
Arguments GetHistoricalLocationInfo {Properties Metadata} feature.
Arguments ShowDetailedInfo {Properties Metadata} info.

(** ** Scenarios

    A map of Rome with one building layer, seen at a few zoom levels. *)

Set Warnings "-inexact-float".

Module Scenario.

Definition buildingLayer : string := "buildings-unclustered".
Definition historicalLayer : string := "historical-footprints".

(** A point marker of the building layer at (12.5, 41.9). *)
Definition marker : Feature string :=
  {| layer := Some {| id := buildingLayer |};
     geometry := Some (Geom_Point [12.5%float; 41.9%float]);
     properties := "Palazzo" |}.

(** A label of a layer that is in neither interactive set. *)
Definition roadLabel : Feature string :=
  {| layer := Some {| id := "road-label" |};
     geometry := Some (Geom_LineString []);
     properties := "Via Appia" |}.

Definition mapAt (zoom : number) (rendered : list (Feature string))
  : MapInstance string :=
  {| isStyleLoaded := true;
     getZoom := zoom;
     queryRenderedFeatures := fun _ _ => rendered |}.

(** The building extractor sets coordinates of its own. *)
Definition importsWith (historical : list string) : Imports string string :=
  {| canInteract := fun _ key => String.eqb key "minZoomForLabelClicks";
     unclusteredLayerIds := [buildingLayer];
     getInteractionLayerIds := fun _ => historical;
     getBuildingLocationInfo := fun f =>
       {| coordinates := Some [0%float; 0%float];
          metadata := ("building " ++ properties f)%string |};
     getHistoricalLocationInfo := fun f =>
       {| coordinates := None;
          metadata := ("historical " ++ properties f)%string |} |}.

(** The detail callback opens the panel. *)
Definition openPanel : DetailCallback string :=
  fun _ st => {| isOpen := true;
                 isFullscreen := isFullscreen st;
                 showOverview := showOverview st |}.

Definition propsAt (zoom : number) (rendered : list (Feature string))
  : GlobalClickProps string string :=
  {| mapInstance := Some (mapAt zoom rendered);
     onShowDetailedInfo := Some openPanel;
     minZoomLevel := None |}.

Definition noMap : GlobalClickProps string string :=
  {| mapInstance := None;
     onShowDetailedInfo := Some openPanel;
     minZoomLevel := None |}.

Definition click : MapMouseEvent :=
  {| point := {| x := 320%float; y := 240%float |};
     lngLat := {| lng := 12.4964%float; lat := 41.9028%float |};
     originalEvent := Some {| button := 0 |} |}.

Definition closedPanel : PanelState :=
  {| isOpen := false; isFullscreen := false; showOverview := false |}.

Definition halfOpenPanel : PanelState :=
  {| isOpen := true; isFullscreen := false; showOverview := false |}.

Definition emptyStore : Store string string :=
  {| panel := closedPanel; trace := [] |}.

End Scenario.

(** ** Further observations *)

(** The calls into one of the two extractors. *)
Definition is_extractor {Properties Metadata : Type}
  (ev : Effect Properties Metadata) : bool :=
  match ev with
  | GetBuildingLocationInfo _ | GetHistoricalLocationInfo _ => true
  | _ => false
  end.


(** *** Observing the registration *)

Module RegistrationView.

Import Registration.

(** Every map is ready: its style is loaded, no one-shot subscription is
    pending and its [off] does not throw. *)
Definition allReady (w : World) : Prop :=
  forall m,
    isStyleLoaded (maps w m) = true
    /\ styleLoadOnce (maps w m) = []
    /\ offThrows (maps w m) = None.

(** The dependencies of the last effect run that is still in force: those
    of the last render, none after unmounting. *)
Fixpoint lastDeps (steps : list Step)
  (current : option (option MapRef * Handler))
  : option (option MapRef * Handler) :=
  match steps with
  | [] => current
  | Render mapInstance h :: rest => lastDeps rest (Some (mapInstance, h))
  | Unmount :: rest => lastDeps rest None
  | StyleLoad _ :: rest => lastDeps rest current
  end.

(** The click listeners a map should carry for given dependencies. *)
Definition listenersFor (d : option (option MapRef * Handler)) (m : MapRef)
  : list Handler :=
  match d with
  | Some (Some m', h) => if Nat.eqb m m' then [h] else []
  | _ => []
  end.

Definition registeredFor (d : option (option MapRef * Handler)) : bool :=
  match d with
  | Some (Some _, _) => true
  | _ => false
  end.

(** The cleanup that React holds for given dependencies once the effect
    has registered at once. *)
Definition pendingFor (d : option (option MapRef * Handler))
  : option (MapRef * Handler) :=
  match d with
  | Some (Some m, h) => Some (m, h)
  | _ => None
  end.

(** The coordinator and the maps agree: the ref, the pending cleanup and
    the click listeners of every map are those of the dependencies in
    force. *)
Definition settled (c : Component) (w : World) : Prop :=
  allReady w
  /\ pendingCleanup c = pendingFor (deps c)
  /\ hasRegisteredRef w = registeredFor (deps c)
  /\ forall m, clickListeners (maps w m) = listenersFor (deps c) m.

(** The effect followed at once by its own cleanup. *)
Definition registerThenCleanup (m : MapRef) (h : Handler) : Reg unit :=
  bind (effect (Some m) h) (fun c =>
    match c with
    | Some (m', h') => cleanup m' h'
    | None => ret tt
    end).

(** The effect, its cleanup, and only then the map firing "style.load". *)
Definition registerCleanupThenLoad (m : MapRef) (h : Handler) : Reg unit :=
  bind (registerThenCleanup m h) (fun _ => fire_style_load m).

(** The effect, then the map firing "style.load" once, then again. *)
Definition registerThenLoad (m : MapRef) (h : Handler) : Reg unit :=
  bind (effect (Some m) h) (fun _ => fire_style_load m).

End RegistrationView.

(** *** Further scenarios *)

Module Scenario2.

Import Scenario.

(** The footprint of a vanished building, on the historical layer. *)
Definition footprint : Feature string :=
  {| layer := Some {| id := historicalLayer |};
     geometry := Some (Geom_Polygon []);
     properties := "Porta" |}.



(** The threshold is not a number. *)
Definition propsWithNaNThreshold : GlobalClickProps string string :=
  {| mapInstance := Some (mapAt 3%float [marker]);
     onShowDetailedInfo := Some openPanel;
     minZoomLevel := Some nan |}.

(** Every map ready and bare, the coordinator not registered. *)
Definition readyWorld : Registration.World :=
  {| Registration.hasRegisteredRef := false;
     Registration.maps := fun _ =>
       {| Registration.isStyleLoaded := true;
          Registration.clickListeners := [];
          Registration.styleLoadOnce := [];
          Registration.offThrows := None |};
     Registration.console := [] |}.

End Scenario2.

(** ** Facts about the click handler *)

Unset Implicit Arguments.

Ltac unfold_click :=
  unfold clickReturn, clickPanel, clickEffects, runClick, topmostFeature,
    handleGlobalClick, queryInteractiveFeatures, usePanelStore_getState,
    usePanelStore_setState, optional_call, log, bind, ret, get, modify in *.

Ltac break_inner x :=
  lazymatch x with
  | context [match ?y with _ => _ end] => break_inner y
  | option_map _ ?y => break_inner y
  | negb ?y => break_inner y
  | andb ?y _ => break_inner y
  | orb ?y _ => break_inner y
  | _ => destruct x eqn:?
  end.

Ltac break_match :=
  match goal with
  | |- context [match ?x with _ => _ end] => break_inner x
  end.

Ltac break_hyp_match :=
  match goal with
  | H : context [match ?x with _ => _ end] |- _ => destruct x eqn:?
  end.

Section ClickFacts.

Variables Properties Metadata : Type.
Variable props : GlobalClickProps Properties Metadata.
Variable imports : Imports Properties Metadata.

(** The handler never reads the trace: run after earlier calls, it returns
    the same value, leaves the same panel store and appends the same
    calls. *)
Lemma handleGlobalClick_frame (e : MapMouseEvent) (s : Store Properties Metadata) :
  handleGlobalClick props imports e s =
  (clickReturn props imports e (panel s),
   {| panel := clickPanel props imports e (panel s);
      trace := trace s ++ clickEffects props imports e (panel s) |}).
Proof.
  destruct s as [st tr].
  unfold_click. cbn [panel trace].
  repeat (break_match; cbn);
    rewrite <- ?app_assoc; cbn [app]; rewrite ?app_nil_r; reflexivity.
Qed.

(** C1. A click that passes the guards up to the zoom gate while the panel
    store reads open and not fullscreen returns [false], leaves the store
    at [{isOpen: true, isFullscreen: true, showOverview: true}] by a single
    write that does not name [isOpen], performs no feature query and does
    not invoke the detail callback, whatever lies under the click point. *)
Theorem panel_expand_click
  (e : MapMouseEvent) (st : PanelState)
  (m : MapInstance Properties) (callback : DetailCallback Metadata) :
  mapInstance props = Some m ->
  onShowDetailedInfo props = Some callback ->
  isStyleLoaded m = true ->
  zoomQualifies props imports m = true ->
  isOpen st = true ->
  isFullscreen st = false ->
  clickReturn props imports e st = Returned (Some false)
  /\ clickPanel props imports e st =
       {| isOpen := true; isFullscreen := true; showOverview := true |}
  /\ clickEffects props imports e st = [PanelSetState expandPatch]
  /\ patch_isOpen expandPatch = None
  /\ existsb (@is_query _ _) (clickEffects props imports e st) = false
  /\ existsb (@is_callback _ _) (clickEffects props imports e st) = false.
Proof.
  intros Hm Hcb Hstyle Hzoom Hopen Hfull.
  unfold zoomQualifies in Hzoom.
  apply andb_true_iff in Hzoom as [Hcan Hleb].
  apply negb_true_iff in Hleb.
  unfold_click.
  rewrite Hm, Hcb, Hstyle, Hcan, Hleb.
  cbn. rewrite Hopen, Hfull. cbn.
  unfold apply_patch, expandPatch; cbn. rewrite Hopen.
  repeat split; reflexivity.
Qed.

(** C2. When the policy predicate rejects the current zoom, or the zoom is
    at most [minZoomLevel] (17 when the property is left out), the handler
    returns [undefined] and has done nothing: no callback, no store write,
    no call on the event. *)
Theorem zoom_gate_aborts
  (e : MapMouseEvent) (st : PanelState) (m : MapInstance Properties) :
  mapInstance props = Some m ->
  canInteract imports (getZoom m) "minZoomForLabelClicks" = false
  \/ PrimFloat.leb (getZoom m)
       (match minZoomLevel props with Some z => z | None => 17%float end)
     = true ->
  clickReturn props imports e st = Returned None
  /\ clickPanel props imports e st = st
  /\ clickEffects props imports e st = []
  /\ existsb (@is_callback _ _) (clickEffects props imports e st) = false
  /\ existsb (@is_store_write _ _) (clickEffects props imports e st) = false
  /\ existsb (@is_claim _ _) (clickEffects props imports e st) = false.
Proof.
  intros Hm Hgate.
  assert (Hcond :
    negb (canInteract imports (getZoom m) "minZoomForLabelClicks")
    || PrimFloat.leb (getZoom m) (minZoomLevel_or_default props) = true).
  { destruct Hgate as [H | H]; [rewrite H; reflexivity |].
    apply orb_true_iff; right; exact H. }
  unfold_click. rewrite Hm.
  destruct (onShowDetailedInfo props); [| repeat split; reflexivity].
  destruct (isStyleLoaded m); cbn [negb]; [| repeat split; reflexivity].
  rewrite Hcond. repeat split; reflexivity.
Qed.

Ltac inject_some :=
  repeat match goal with
         | H : Some _ = Some _ |- _ => injection H as H; try subst
         end.

Ltac click_crush :=
  unfold_click;
  unfold branch_of, reachesFeatureQuery, zoomQualifies, topmostFeature,
    nativeClaims, interactiveLayerIds, queryInteractiveFeatures,
    log, bind, ret, get, modify in *;
  cbn in *;
  repeat (inject_some; break_match; cbn in *; try discriminate;
          try congruence);
  inject_some; cbn in *; try discriminate; try congruence.

(** A click stopped by a guard before the feature query does nothing, or
    only expands the panel. *)
Lemma unreached_click (e : MapMouseEvent) (st : PanelState) :
  reachesFeatureQuery props imports st = false ->
  clickEffects props imports e st = []
  \/ clickEffects props imports e st = [PanelSetState expandPatch].
Proof.
  intros H. click_crush; auto.
Qed.

(** A click that reaches the query and finds no feature only queries, if
    at all. *)
Lemma no_feature_click (e : MapMouseEvent) (st : PanelState) :
  reachesFeatureQuery props imports st = true ->
  topmostFeature props imports e = None ->
  clickReturn props imports e st = Returned None
  /\ clickPanel props imports e st = st
  /\ forallb (@is_query _ _) (clickEffects props imports e st) = true.
Proof.
  intros H Htop. click_crush; auto.
Qed.

(** A click on a feature without a usable layer id queries and stops. *)
Lemma unresolved_layer_click
  (e : MapMouseEvent) (st : PanelState) (feature : Feature Properties) :
  reachesFeatureQuery props imports st = true ->
  topmostFeature props imports e = Some feature ->
  match layer feature with
  | Some lyr => String.eqb (id lyr) "" = true
  | None => True
  end ->
  clickReturn props imports e st = Returned None
  /\ clickPanel props imports e st = st
  /\ clickEffects props imports e st =
       [QueryRenderedFeatures (point e) (interactiveLayerIds imports)].
Proof.
  intros H Htop Hlayer. click_crush; auto.
Qed.

(** A click on a feature with a usable layer id: the event is claimed,
    then the layer id is classified. *)
Lemma classified_click
  (e : MapMouseEvent) (st : PanelState) (feature : Feature Properties)
  (lyr : Layer) (callback : DetailCallback Metadata) :
  reachesFeatureQuery props imports st = true ->
  onShowDetailedInfo props = Some callback ->
  topmostFeature props imports e = Some feature ->
  layer feature = Some lyr ->
  String.eqb (id lyr) "" = false ->
  let claimed :=
    QueryRenderedFeatures (point e) (interactiveLayerIds imports)
    :: PreventDefault :: nativeClaims e in
  let coords := displayCoordinates feature e in
  runClick props imports e st =
  if includes (unclusteredLayerIds imports) (id lyr) then
    let info := set_coordinates (getBuildingLocationInfo imports feature)
                                coords in
    (Returned (Some false),
     {| panel := callback info st;
        trace := claimed ++ [GetBuildingLocationInfo feature;
                             ShowDetailedInfo info] |})
  else if includes (getInteractionLayerIds imports tt) (id lyr) then
    let info := set_coordinates (getHistoricalLocationInfo imports feature)
                                coords in
    (Returned (Some false),
     {| panel := callback info st;
        trace := claimed ++ [GetHistoricalLocationInfo feature;
                             ShowDetailedInfo info] |})
  else
    (Returned (Some false),
     {| panel := st;
        trace := claimed ++ [ConsoleWarn "图层ID不再交互范围内:" (id lyr)] |}).
Proof.
  intros H Hcb Htop Hlayer Hid claimed coords.
  subst claimed coords. unfold displayCoordinates.
  click_crush.
Qed.

(** C3. When the topmost queried feature lies on a building layer and the
    detail callback is invoked with a record, that record is the building
    extractor's, with its coordinates replaced: by the coordinates of the
    feature's geometry when that is a point, and by the click's longitude
    and latitude otherwise.  Whatever coordinates the extractor had set
    are gone. *)
Theorem building_click_coordinates
  (e : MapMouseEvent) (st : PanelState) (feature : Feature Properties)
  (lyr : Layer) (info : LocationInfo Metadata) :
  topmostFeature props imports e = Some feature ->
  layer feature = Some lyr ->
  includes (unclusteredLayerIds imports) (id lyr) = true ->
  In (ShowDetailedInfo info) (clickEffects props imports e st) ->
  coordinates info =
    Some (match geometry feature with
          | Some (Geom_Point c) => c
          | _ => [lng (lngLat e); lat (lngLat e)]
          end)
  /\ metadata info = metadata (getBuildingLocationInfo imports feature)
  /\ info = set_coordinates (getBuildingLocationInfo imports feature)
                            (displayCoordinates feature e).
Proof.
  intros Htop Hlayer Hbuilding Hfired.
  destruct (reachesFeatureQuery props imports st) eqn:Hreach.
  - destruct (onShowDetailedInfo props) as [callback |] eqn:Hcb.
    + destruct (String.eqb (id lyr) "") eqn:Hid.
      * destruct (unresolved_layer_click e st feature Hreach Htop)
          as (_ & _ & Heff).
        { rewrite Hlayer. exact Hid. }
        rewrite Heff in Hfired. cbn in Hfired.
        destruct Hfired as [Hfired | []]. discriminate.
      * pose proof (classified_click e st feature lyr callback
                      Hreach Hcb Htop Hlayer Hid) as Hrun.
        cbn zeta in Hrun. rewrite Hbuilding in Hrun.
        unfold clickEffects in Hfired. rewrite Hrun in Hfired.
        cbn [snd trace] in Hfired.
        apply in_app_or in Hfired.
        destruct Hfired as [Hfired | Hfired].
        -- exfalso. unfold nativeClaims in Hfired.
           destruct (originalEvent e); cbn in Hfired;
             intuition discriminate.
        -- cbn in Hfired.
           destruct Hfired as [Hfired | [Hfired | []]];
             [discriminate |].
           injection Hfired as <-.
           unfold displayCoordinates. cbn. auto.
    + unfold reachesFeatureQuery in Hreach. rewrite Hcb in Hreach.
      destruct (mapInstance props); discriminate.
  - destruct (unreached_click e st Hreach) as [Heff | Heff];
      rewrite Heff in Hfired; cbn in Hfired.
    + destruct Hfired.
    + destruct Hfired as [Hfired | []]. discriminate.
Qed.

(** With at least one interactive layer id, the clicks that pass the
    guards are exactly those that call the map's spatial query. *)
Lemma reaches_iff_queries (e : MapMouseEvent) (st : PanelState) :
  interactiveLayerIds imports <> [] ->
  reachesFeatureQuery props imports st = true
  <-> existsb (@is_query _ _) (clickEffects props imports e st) = true.
Proof.
  intros Hne. unfold interactiveLayerIds in Hne.
  destruct (unclusteredLayerIds imports ++ getInteractionLayerIds imports tt)
    as [| i ids] eqn:Hids; [contradiction |].
  click_crush;
    try (rewrite Hids in *; cbn in *; discriminate);
    split; intros; try discriminate; try reflexivity.
Qed.

Lemma reaches_has_callback (st : PanelState) :
  reachesFeatureQuery props imports st = true ->
  exists callback, onShowDetailedInfo props = Some callback.
Proof.
  unfold reachesFeatureQuery. intros H.
  destruct (mapInstance props); [| discriminate].
  destruct (onShowDetailedInfo props) as [callback |]; [| discriminate].
  exists callback. reflexivity.
Qed.

(** C6. A click whose topmost feature carries a non-empty layer id that is
    in neither layer set queries, claims the event ([preventDefault] on
    the map event, then the three calls on its native event), warns with
    the layer id, and returns [false]; the callback is not invoked and the
    panel store is left alone. *)
Theorem unclassified_layer_click
  (e : MapMouseEvent) (st : PanelState) (feature : Feature Properties)
  (lyr : Layer) :
  reachesFeatureQuery props imports st = true ->
  topmostFeature props imports e = Some feature ->
  layer feature = Some lyr ->
  id lyr <> "" ->
  includes (unclusteredLayerIds imports) (id lyr) = false ->
  includes (getInteractionLayerIds imports tt) (id lyr) = false ->
  clickReturn props imports e st = Returned (Some false)
  /\ clickPanel props imports e st = st
  /\ clickEffects props imports e st =
       QueryRenderedFeatures (point e) (interactiveLayerIds imports)
       :: PreventDefault
       :: match originalEvent e with
          | Some _ => [OriginalPreventDefault; OriginalStopPropagation;
                       OriginalStopImmediatePropagation]
          | None => []
          end
       ++ [ConsoleWarn "图层ID不再交互范围内:" (id lyr)]
  /\ existsb (@is_warning _ _) (clickEffects props imports e st) = true
  /\ existsb (@is_callback _ _) (clickEffects props imports e st) = false.
Proof.
  intros Hreach Htop Hlayer Hid Hb Hh.
  destruct (reaches_has_callback st Hreach) as [callback Hcb].
  apply String.eqb_neq in Hid.
  pose proof (classified_click e st feature lyr callback
                Hreach Hcb Htop Hlayer Hid) as Hrun.
  cbn zeta in Hrun. rewrite Hb, Hh in Hrun.
  unfold clickReturn, clickPanel, clickEffects. rewrite Hrun.
  unfold nativeClaims. cbn [fst snd panel trace].
  destruct (originalEvent e); cbn; repeat split; reflexivity.
Qed.

(** C10. A layer id in both layer sets is classified as a building layer:
    for a click whose topmost feature has such a layer id the historical
    extractor is never called, and once the click gets to classification
    the building extractor is called on that feature.  For every click,
    the historical extractor is called only on a feature whose layer id
    is not in the building set. *)
Theorem building_set_classified_first
  (e : MapMouseEvent) (st : PanelState) (feature : Feature Properties)
  (lyr : Layer) :
  topmostFeature props imports e = Some feature ->
  layer feature = Some lyr ->
  includes (unclusteredLayerIds imports) (id lyr) = true ->
  includes (getInteractionLayerIds imports tt) (id lyr) = true ->
  (forall f, ~ In (GetHistoricalLocationInfo f)
                  (clickEffects props imports e st))
  /\ (reachesFeatureQuery props imports st = true ->
      id lyr <> "" ->
      In (GetBuildingLocationInfo feature) (clickEffects props imports e st)
      /\ In (ShowDetailedInfo
               (set_coordinates (getBuildingLocationInfo imports feature)
                                (displayCoordinates feature e)))
            (clickEffects props imports e st))
  /\ (forall (st' : PanelState) (e' : MapMouseEvent) f,
        In (GetHistoricalLocationInfo f) (clickEffects props imports e' st') ->
        exists lyr',
          layer f = Some lyr'
          /\ includes (unclusteredLayerIds imports) (id lyr') = false
          /\ includes (getInteractionLayerIds imports tt) (id lyr') = true).
Proof.
  intros Htop Hlayer Hb Hh.
  assert (Hgen : forall (st' : PanelState) (e' : MapMouseEvent) f,
        In (GetHistoricalLocationInfo f) (clickEffects props imports e' st') ->
        topmostFeature props imports e' = Some f
        /\ exists lyr',
          layer f = Some lyr'
          /\ includes (unclusteredLayerIds imports) (id lyr') = false
          /\ includes (getInteractionLayerIds imports tt) (id lyr') = true).
  { intros st' e' f Hin.
    destruct (reachesFeatureQuery props imports st') eqn:Hreach.
    - destruct (reaches_has_callback st' Hreach) as [callback Hcb].
      destruct (topmostFeature props imports e') as [f' |] eqn:Htop'.
      + assert (Hcase :
          match layer f' with
          | Some l => String.eqb (id l) "" = true
          | None => True
          end
          \/ exists l, layer f' = Some l /\ String.eqb (id l) "" = false).
        { destruct (layer f') as [l |]; [| left; exact I].
          destruct (String.eqb (id l) "") eqn:E; [left; reflexivity |].
          right. exists l. split; [reflexivity | exact E]. }
        destruct Hcase as [Hbad | (l & Hl & Hidl)].
        * destruct (unresolved_layer_click e' st' f' Hreach Htop' Hbad)
            as (_ & _ & Heff).
          rewrite Heff in Hin. cbn in Hin. intuition discriminate.
        * pose proof (classified_click e' st' f' l callback
                        Hreach Hcb Htop' Hl Hidl) as Hrun.
          cbn zeta in Hrun. unfold clickEffects in Hin.
          rewrite Hrun in Hin. unfold nativeClaims in Hin.
          destruct (includes (unclusteredLayerIds imports) (id l)) eqn:Eb;
            [| destruct (includes (getInteractionLayerIds imports tt) (id l))
                 eqn:Eh];
            destruct (originalEvent e'); cbn in Hin;
            intuition (try discriminate);
            match goal with
            | H : GetHistoricalLocationInfo _ = GetHistoricalLocationInfo _
              |- _ => injection H as <-
            end;
            first [reflexivity | exists l; auto].
      + destruct (no_feature_click e' st' Hreach Htop') as (_ & _ & Hall).
        rewrite forallb_forall in Hall. apply Hall in Hin. discriminate.
    - destruct (unreached_click e' st' Hreach) as [Heff | Heff];
        rewrite Heff in Hin; cbn in Hin; intuition discriminate. }
  split; [| split].
  - intros f Hin. destruct (Hgen st e f Hin) as (Htop' & l & Hl & Hbl & _).
    rewrite Htop in Htop'. injection Htop' as <-.
    rewrite Hlayer in Hl. injection Hl as <-. congruence.
  - intros Hreach Hid.
    destruct (reaches_has_callback st Hreach) as [callback Hcb].
    apply String.eqb_neq in Hid.
    pose proof (classified_click e st feature lyr callback
                  Hreach Hcb Htop Hlayer Hid) as Hrun.
    cbn zeta in Hrun. rewrite Hb in Hrun.
    unfold clickEffects. rewrite Hrun. cbn [snd trace].
    split; apply in_or_app; right; cbn; auto.
  - intros st' e' f Hin. apply (Hgen st' e' f Hin).
Qed.

(** C9. The handler always returns, and what it returns is decided by the
    branch taken: [false] on the panel-expand branch, the
    unclassified-layer branch and the success branch, [undefined] on the
    five others.  The three branches are told apart from outside by the
    store write, the warning and the callback. *)
Theorem handled_signal_by_branch (e : MapMouseEvent) (st : PanelState) :
  let b := branch_of props imports e st in
  let effects := clickEffects props imports e st in
  clickReturn props imports e st = Returned (handledSignal b)
  /\ (clickReturn props imports e st = Returned (Some false)
      <-> b = PanelExpand \/ b = UnclassifiedLayer \/ b = Success)
  /\ (clickReturn props imports e st = Returned None
      <-> b = NoMapOrCallback \/ b = StyleNotLoaded \/ b = ZoomGateFailed
          \/ b = NoFeature \/ b = NoLayerId)
  /\ (b = PanelExpand <-> existsb (@is_store_write _ _) effects = true)
  /\ (b = UnclassifiedLayer <-> existsb (@is_warning _ _) effects = true)
  /\ (b = Success <-> existsb (@is_callback _ _) effects = true).
Proof.
  cbv zeta.
  assert (Hsig : forall b : Branch,
    (Returned (E := string) (handledSignal b) = Returned (Some false)
     <-> b = PanelExpand \/ b = UnclassifiedLayer \/ b = Success)
    /\ (Returned (E := string) (handledSignal b) = Returned None
        <-> b = NoMapOrCallback \/ b = StyleNotLoaded \/ b = ZoomGateFailed
            \/ b = NoFeature \/ b = NoLayerId)).
  { intros b; destruct b; cbn; split; split; intros H;
      try discriminate; auto 6;
      repeat (destruct H as [H | H]; try discriminate). }
  assert (Hmain :
    clickReturn props imports e st
    = Returned (handledSignal (branch_of props imports e st))
    /\ (branch_of props imports e st = PanelExpand
        <-> existsb (@is_store_write _ _) (clickEffects props imports e st)
            = true)
    /\ (branch_of props imports e st = UnclassifiedLayer
        <-> existsb (@is_warning _ _) (clickEffects props imports e st)
            = true)
    /\ (branch_of props imports e st = Success
        <-> existsb (@is_callback _ _) (clickEffects props imports e st)
            = true)).
  { click_crush;
      repeat split; intros; try discriminate; try reflexivity. }
  destruct Hmain as (Hret & Hexp & Hwarn & Hok).
  rewrite Hret.
  destruct (Hsig (branch_of props imports e st)) as [H1 H2].
  repeat split; try apply H1; try apply H2;
    try apply Hexp; try apply Hwarn; try apply Hok.
Qed.

(** C8. When there is no interactive layer id, or no map instance, the
    adapter returns an empty result and never calls the map's spatial
    query: the empty array when there is no layer id, [undefined] when
    there are layer ids but no map.  Both are empty for the handler's
    test. *)
Theorem queryInteractiveFeatures_short_circuits
  (pt : Point) (s : Store Properties Metadata) :
  interactiveLayerIds imports = [] \/ mapInstance props = None ->
  exists r,
    queryInteractiveFeatures props imports pt s = (Returned r, s)
    /\ isEmptyResult r = true
    /\ (interactiveLayerIds imports = [] -> r = Some [])
    /\ (interactiveLayerIds imports <> [] -> r = None).
Proof.
  unfold queryInteractiveFeatures, interactiveLayerIds, bind, ret, log.
  intros [Hempty | Hmap].
  - rewrite Hempty. exists (Some []). cbn.
    repeat split; auto. intros H; contradiction.
  - rewrite Hmap.
    destruct (unclusteredLayerIds imports ++ getInteractionLayerIds imports tt)
      as [| i ids].
    + exists (Some []). cbn. repeat split; auto. intros H; contradiction.
    + exists None. cbn. repeat split; auto. intros H; discriminate.
Qed.

End ClickFacts.

(** ** Facts about registration and teardown *)

Module RegistrationFacts.

Import Registration.

Ltac unfold_reg :=
  unfold cleanup, effect, registerEvents, styleLoadCallback, off_click,
    on_click, once_style_load, console_write, set_hasRegisteredRef,
    try_catch, throw, bind, ret, get, modify in *.

(** The guard of the effect: once the ref reads true, the effect touches
    nothing and hands back no cleanup. *)
Lemma effect_when_registered
  (mapInstance : option MapRef) (h : Handler) (w : World) :
  hasRegisteredRef w = true ->
  effect mapInstance h w = (Returned None, w).
Proof.
  intros Hflag. unfold_reg. rewrite Hflag.
  destruct mapInstance; reflexivity.
Qed.

(** On a map whose style is loaded, the effect attaches the handler at
    once and sets the ref. *)
Lemma effect_style_loaded (m : MapRef) (h : Handler) (w : World) :
  hasRegisteredRef w = false ->
  isStyleLoaded (maps w m) = true ->
  exists w',
    effect (Some m) h w = (Returned (Some (m, h)), w')
    /\ hasRegisteredRef w' = true
    /\ clickListeners (maps w' m) = add_listener h (clickListeners (maps w m)).
Proof.
  intros Hflag Hstyle. unfold_reg. rewrite Hflag, Hstyle.
  eexists. split; [reflexivity |]. cbn.
  rewrite Nat.eqb_refl. cbn. auto.
Qed.

(** On a map whose style is still loading, the effect only subscribes;
    the ref stays false. *)
Lemma effect_style_loading (m : MapRef) (h : Handler) (w : World) :
  hasRegisteredRef w = false ->
  isStyleLoaded (maps w m) = false ->
  exists w',
    effect (Some m) h w = (Returned (Some (m, h)), w')
    /\ hasRegisteredRef w' = false
    /\ clickListeners (maps w' m) = clickListeners (maps w m)
    /\ styleLoadOnce (maps w' m) = styleLoadOnce (maps w m) ++ [h].
Proof.
  intros Hflag Hstyle. unfold_reg. rewrite Hflag, Hstyle.
  eexists. split; [reflexivity |]. cbn.
  rewrite Nat.eqb_refl. cbn. auto.
Qed.

(** The cleanup of a run that never got to attach detaches nothing: a
    subscription to "style.load" outlives it. *)
Lemma cleanup_keeps_subscription (m : MapRef) (h : Handler) (w : World) :
  hasRegisteredRef w = false ->
  cleanup m h w =
  (Returned tt,
   {| hasRegisteredRef := false; maps := maps w; console := console w |}).
Proof.
  intros Hflag. unfold_reg. rewrite Hflag. reflexivity.
Qed.

Lemma run_callbacks_returns (m : MapRef) (pending : list Handler) (w : World) :
  exists w',
    run_callbacks m pending w = (Returned tt, w')
    /\ styleLoadOnce (maps w' m) = styleLoadOnce (maps w m).
Proof.
  revert w. induction pending as [| h rest IH]; intros w.
  - exists w. split; reflexivity.
  - cbn [run_callbacks]. unfold_reg.
    match goal with
    | |- exists w', run_callbacks m rest ?w1 = _ /\ _ =>
        destruct (IH w1) as (w' & Hrun & Honce)
    end.
    exists w'. split; [exact Hrun |].
    rewrite Honce. cbn. rewrite Nat.eqb_refl. reflexivity.
Qed.

(** The one-shot subscriptions are gone once "style.load" has fired: a
    second firing has no callback left to run. *)
Lemma fire_style_load_consumes (m : MapRef) (w : World) :
  exists w',
    fire_style_load m w = (Returned tt, w')
    /\ styleLoadOnce (maps w' m) = [].
Proof.
  unfold fire_style_load. unfold bind at 1 2. unfold get, modify.
  match goal with
  | |- exists w', run_callbacks m ?p ?w1 = _ /\ _ =>
      destruct (run_callbacks_returns m p w1) as (w' & Hrun & Honce)
  end.
  exists w'. split; [exact Hrun |].
  rewrite Honce. cbn. rewrite Nat.eqb_refl. reflexivity.
Qed.

(** The cleanup returns, with the ref reset, from every world. *)
Lemma cleanup_returns (m : MapRef) (h : Handler) (w : World) :
  exists w', cleanup m h w = (Returned tt, w') /\ hasRegisteredRef w' = false.
Proof.
  unfold_reg.
  destruct (hasRegisteredRef w);
    [destruct (offThrows (maps w m)) |];
    eexists; split; reflexivity.
Qed.

(** C4, at the input where it fails.  The coordinator mounts on a map
    whose style is still loading, is rendered again with a new handler
    before "style.load", and then the style loads: both one-shot
    callbacks run, and the map ends up with two click listeners. *)
Theorem rerender_before_style_load_attaches_twice :
  let w := snd (run [Render (Some 0) 1; Render (Some 0) 2; StyleLoad 0]
                    unmounted loadingWorld) in
  clickListeners (maps w 0) = [1; 2]
  /\ List.length (clickListeners (maps w 0)) = 2
  /\ hasRegisteredRef w = true.
Proof. cbv zeta. repeat split; reflexivity. Qed.

(** The same coordinator rendered once attaches one listener. *)
Example single_render_attaches_once :
  let w := snd (run [Render (Some 0) 1; StyleLoad 0; StyleLoad 0]
                    unmounted loadingWorld) in
  clickListeners (maps w 0) = [1] /\ hasRegisteredRef w = true.
Proof. cbv zeta. split; reflexivity. Qed.

(** After the double attach, unmounting detaches the handler of the last
    render only. *)
Example first_handler_outlives_unmount :
  let w := snd (run [Render (Some 0) 1; Render (Some 0) 2; StyleLoad 0;
                     Unmount]
                    unmounted loadingWorld) in
  clickListeners (maps w 0) = [1] /\ hasRegisteredRef w = false.
Proof. cbv zeta. split; reflexivity. Qed.

(** Unmounted before "style.load", the coordinator still attaches its
    handler when the style loads. *)
Example unmount_before_style_load_still_attaches :
  let w := snd (run [Render (Some 0) 1; Unmount; StyleLoad 0]
                    unmounted loadingWorld) in
  clickListeners (maps w 0) = [1] /\ hasRegisteredRef w = true.
Proof. cbv zeta. split; reflexivity. Qed.

(** C5. The cleanup always returns and always leaves the ref at false.
    When the ref read true and the detach throws, the error is caught and
    written to the console as a warning, and the listener tables are as
    they were; nothing is thrown to the caller. *)
Theorem cleanup_always_completes (m : MapRef) (h : Handler) (w : World) :
  exists w',
    cleanup m h w = (Returned tt, w')
    /\ hasRegisteredRef w' = false
    /\ (forall err,
          hasRegisteredRef w = true ->
          offThrows (maps w m) = Some err ->
          console w' =
            console w ++ [ConsoleWarn "清理全局事件监听器失败:" err]
          /\ maps w' = maps w).
Proof.
  unfold_reg.
  destruct (hasRegisteredRef w) eqn:Hflag.
  - destruct (offThrows (maps w m)) as [err |] eqn:Hoff.
    + eexists. split; [reflexivity |]. split; [reflexivity |].
      intros err' _ Herr. injection Herr as <-. cbn. auto.
    + eexists. split; [reflexivity |]. split; [reflexivity |].
      intros err' _ Herr. discriminate.
  - eexists. split; [reflexivity |]. split; [reflexivity |].
    intros err' Hcontra. discriminate.
Qed.

(** A detach that throws, run: the warning is on the console, and the ref
    is reset. *)
Example cleanup_with_throwing_detach :
  cleanup 0 1 stubbornWorld
  = (Returned tt,
     {| hasRegisteredRef := false;
        maps := maps stubbornWorld;
        console := [ConsoleWarn "清理全局事件监听器失败:" "map was removed"] |}).
Proof. reflexivity. Qed.

(** Unmounting never throws either. *)
Lemma unmount_always_completes (c : Component) (w : World) :
  exists c' w', unmount c w = (Returned c', w').
Proof.
  unfold unmount, run_pending.
  destruct (pendingCleanup c) as [[m h] |].
  - destruct (cleanup_returns m h w) as (w' & Hrun & _).
    unfold bind at 1. rewrite Hrun. unfold ret.
    do 2 eexists. reflexivity.
  - unfold bind, ret. do 2 eexists. reflexivity.
Qed.

End RegistrationFacts.

(** ** The scenarios, run *)

Module ScenarioFacts.

Import Scenario.

(** Zoom 18, panel closed, click on the marker: the callback receives the
    building record with coordinates (12.5, 41.9), not the extractor's. *)
Example marker_click_at_zoom_18 :
  runClick (propsAt 18%float [marker]) (importsWith [historicalLayer])
           click closedPanel
  = (Returned (Some false),
     {| panel := {| isOpen := true; isFullscreen := false;
                    showOverview := false |};
        trace :=
          [QueryRenderedFeatures (point click)
             [buildingLayer; historicalLayer];
           PreventDefault; OriginalPreventDefault; OriginalStopPropagation;
           OriginalStopImmediatePropagation;
           GetBuildingLocationInfo marker;
           ShowDetailedInfo
             {| coordinates := Some [12.5%float; 41.9%float];
                metadata := "building Palazzo" |}] |}).
Proof. reflexivity. Qed.

(** Zoom 16, the same click: nothing happens. *)
Example marker_click_at_zoom_16 :
  runClick (propsAt 16%float [marker]) (importsWith [historicalLayer])
           click closedPanel
  = (Returned None, {| panel := closedPanel; trace := [] |}).
Proof. reflexivity. Qed.

(** C7, at an input of the panel-expand branch.  With the panel open and
    not fullscreen the handler writes the store and returns [false], and
    calls none of [preventDefault], [stopPropagation],
    [stopImmediatePropagation]; the same click with the panel closed takes
    the feature path and makes all four calls. *)
Theorem panel_expand_click_leaves_event_unclaimed :
  clickEffects (propsAt 18%float [marker]) (importsWith [historicalLayer])
               click halfOpenPanel
  = [PanelSetState expandPatch]
  /\ existsb (@is_claim _ _)
       (clickEffects (propsAt 18%float [marker])
                     (importsWith [historicalLayer]) click halfOpenPanel)
     = false
  /\ clickReturn (propsAt 18%float [marker]) (importsWith [historicalLayer])
                 click halfOpenPanel
     = Returned (Some false)
  /\ filter (@is_claim _ _)
       (clickEffects (propsAt 18%float [marker])
                     (importsWith [historicalLayer]) click closedPanel)
     = [PreventDefault; OriginalPreventDefault; OriginalStopPropagation;
        OriginalStopImmediatePropagation].
Proof. repeat split; reflexivity. Qed.

Lemma panel_expand_click_witness :
  clickPanel (propsAt 18%float [marker]) (importsWith [historicalLayer])
             click halfOpenPanel
  = {| isOpen := true; isFullscreen := true; showOverview := true |}
  /\ clickEffects (propsAt 18%float [marker]) (importsWith [historicalLayer])
                  click halfOpenPanel
     = [PanelSetState expandPatch].
Proof.
  pose proof (panel_expand_click string string
                (propsAt 18%float [marker]) (importsWith [historicalLayer])
                click halfOpenPanel (mapAt 18%float [marker]) openPanel
                eq_refl eq_refl eq_refl eq_refl eq_refl eq_refl)
    as (_ & Hpanel & Heffects & _).
  exact (conj Hpanel Heffects).
Defined.

Lemma zoom_gate_aborts_witness :
  clickReturn (propsAt 16%float [marker]) (importsWith [historicalLayer])
              click closedPanel = Returned None
  /\ clickEffects (propsAt 16%float [marker]) (importsWith [historicalLayer])
                  click closedPanel = [].
Proof.
  pose proof (zoom_gate_aborts string string
                (propsAt 16%float [marker]) (importsWith [historicalLayer])
                click closedPanel (mapAt 16%float [marker])
                eq_refl (or_intror eq_refl))
    as (Hret & _ & Heffects & _).
  exact (conj Hret Heffects).
Defined.

Lemma building_click_coordinates_witness :
  coordinates
    (set_coordinates
       (getBuildingLocationInfo (importsWith [historicalLayer]) marker)
       [12.5%float; 41.9%float])
  = Some [12.5%float; 41.9%float].
Proof.
  refine (proj1 (building_click_coordinates string string
            (propsAt 18%float [marker]) (importsWith [historicalLayer])
            click closedPanel marker {| id := buildingLayer |} _
            eq_refl eq_refl eq_refl _)).
  cbv. do 6 right. left. reflexivity.
Defined.

Lemma unclassified_layer_click_witness :
  clickReturn (propsAt 18%float [roadLabel]) (importsWith [historicalLayer])
              click closedPanel = Returned (Some false)
  /\ clickEffects (propsAt 18%float [roadLabel])
                  (importsWith [historicalLayer]) click closedPanel
     = [QueryRenderedFeatures (point click) [buildingLayer; historicalLayer];
        PreventDefault; OriginalPreventDefault; OriginalStopPropagation;
        OriginalStopImmediatePropagation;
        ConsoleWarn "图层ID不再交互范围内:" "road-label"].
Proof.
  assert (Hid : id {| id := "road-label" |} <> "") by discriminate.
  pose proof (unclassified_layer_click string string
                (propsAt 18%float [roadLabel]) (importsWith [historicalLayer])
                click closedPanel roadLabel {| id := "road-label" |}
                eq_refl eq_refl eq_refl Hid eq_refl eq_refl)
    as (Hret & _ & Heffects & _).
  exact (conj Hret Heffects).
Defined.

Lemma building_set_classified_first_witness :
  In (GetBuildingLocationInfo marker)
     (clickEffects (propsAt 18%float [marker])
                   (importsWith [buildingLayer; historicalLayer])
                   click closedPanel)
  /\ forall f,
       ~ In (GetHistoricalLocationInfo f)
            (clickEffects (propsAt 18%float [marker])
                          (importsWith [buildingLayer; historicalLayer])
                          click closedPanel).
Proof.
  assert (Hid : id {| id := buildingLayer |} <> "") by discriminate.
  pose proof (building_set_classified_first string string
                (propsAt 18%float [marker])
                (importsWith [buildingLayer; historicalLayer])
                click closedPanel marker {| id := buildingLayer |}
                eq_refl eq_refl eq_refl eq_refl)
    as (Hnever & Hbuilding & _).
  exact (conj (proj1 (Hbuilding eq_refl Hid)) Hnever).
Defined.

Lemma queryInteractiveFeatures_short_circuits_witness :
  exists r,
    queryInteractiveFeatures noMap (importsWith [historicalLayer])
                             (point click) emptyStore
    = (Returned r, emptyStore)
    /\ isEmptyResult r = true.
Proof.
  destruct (queryInteractiveFeatures_short_circuits string string
              noMap (importsWith [historicalLayer]) (point click) emptyStore
              (or_intror eq_refl))
    as (r & Hrun & Hempty & _).
  exists r. exact (conj Hrun Hempty).
Defined.

End ScenarioFacts.

(** ** More about the click handler *)

Section ClickCoverage.

Variables Properties Metadata : Type.
Variable props : GlobalClickProps Properties Metadata.
Variable imports : Imports Properties Metadata.

Ltac click_cases :=
  unfold_click;
  unfold branch_of, reachesFeatureQuery, zoomQualifies, topmostFeature,
    nativeClaims, interactiveLayerIds, queryInteractiveFeatures,
    log, bind, ret, get, modify in *;
  cbn in *;
  repeat (break_match; cbn in *; try discriminate; try congruence).

(** X1. Without a map instance, without a detail callback, or before the
    style has loaded, a click does nothing at all: no store write (an
    open panel is not expanded), no query, no call on the event, and
    [undefined] is returned. *)
Theorem unready_click_does_nothing (e : MapMouseEvent) (st : PanelState) :
  mapInstance props = None
  \/ onShowDetailedInfo props = None
  \/ (exists m, mapInstance props = Some m /\ isStyleLoaded m = false) ->
  runClick props imports e st
  = (Returned None, {| panel := st; trace := [] |}).
Proof.
  intros [Hmap | [Hcb | (m & Hmap & Hstyle)]]; unfold runClick;
    unfold handleGlobalClick.
  - rewrite Hmap. reflexivity.
  - rewrite Hcb. destruct (mapInstance props); reflexivity.
  - rewrite Hmap, Hstyle. destruct (onShowDetailedInfo props); reflexivity.
Qed.

(** X2. One click makes each kind of call at most once: one spatial query,
    one extractor call, one warning, one store write of its own, one
    callback invocation; and it never both expands the panel and invokes
    the callback. *)
Theorem click_calls_at_most_once (e : MapMouseEvent) (st : PanelState) :
  let effects := clickEffects props imports e st in
  List.length (filter (@is_query _ _) effects) <= 1
  /\ List.length (filter (@is_extractor _ _) effects) <= 1
  /\ List.length (filter (@is_warning _ _) effects) <= 1
  /\ List.length (filter (@is_store_write _ _) effects) <= 1
  /\ List.length (filter (@is_callback _ _) effects) <= 1
  /\ existsb (@is_store_write _ _) effects
     && existsb (@is_callback _ _) effects = false.
Proof.
  cbv zeta. click_cases; repeat split; auto.
Qed.

(** X3. Whenever the handler calls the map's spatial query it does so at
    the click's own screen point, with the building layer ids followed by
    the historical layer ids, and that list is not empty. *)
Theorem click_query_arguments
  (e : MapMouseEvent) (st : PanelState) (pt : Point) (layers : list string) :
  In (QueryRenderedFeatures pt layers) (clickEffects props imports e st) ->
  pt = point e
  /\ layers = unclusteredLayerIds imports ++ getInteractionLayerIds imports tt
  /\ layers <> []
  /\ reachesFeatureQuery props imports st = true.
Proof.
  click_cases; intros Hin;
    repeat (destruct Hin as [Hin | Hin]; try discriminate);
    try contradiction;
    injection Hin as <- <-;
    (repeat split; auto;
     intros Hnil; rewrite Hnil in *; discriminate).
Qed.

(** What an invocation of the callback tells about the click. *)
Lemma callback_fired_inv
  (e : MapMouseEvent) (st : PanelState) (info : LocationInfo Metadata) :
  In (ShowDetailedInfo info) (clickEffects props imports e st) ->
  exists feature lyr callback,
    reachesFeatureQuery props imports st = true
    /\ onShowDetailedInfo props = Some callback
    /\ topmostFeature props imports e = Some feature
    /\ layer feature = Some lyr
    /\ String.eqb (id lyr) "" = false
    /\ ((includes (unclusteredLayerIds imports) (id lyr) = true
         /\ info = set_coordinates (getBuildingLocationInfo imports feature)
                                   (displayCoordinates feature e))
        \/ (includes (unclusteredLayerIds imports) (id lyr) = false
            /\ includes (getInteractionLayerIds imports tt) (id lyr) = true
            /\ info = set_coordinates
                        (getHistoricalLocationInfo imports feature)
                        (displayCoordinates feature e))).
Proof.
  intros Hin.
  destruct (reachesFeatureQuery props imports st) eqn:Hreach.
  - destruct (reaches_has_callback _ _ props imports st Hreach)
      as [callback Hcb].
    destruct (topmostFeature props imports e) as [feature |] eqn:Htop.
    + destruct (layer feature) as [lyr |] eqn:Hlayer.
      * destruct (String.eqb (id lyr) "") eqn:Hid.
        -- destruct (unresolved_layer_click _ _ props imports e st feature
                       Hreach Htop) as (_ & _ & Heff).
           { rewrite Hlayer. exact Hid. }
           rewrite Heff in Hin. cbn in Hin. intuition discriminate.
        -- pose proof (classified_click _ _ props imports e st feature lyr
                         callback Hreach Hcb Htop Hlayer Hid) as Hrun.
           cbn zeta in Hrun. unfold clickEffects in Hin.
           rewrite Hrun in Hin. unfold nativeClaims in Hin.
           exists feature, lyr, callback.
           destruct (includes (unclusteredLayerIds imports) (id lyr)) eqn:Eb;
             [| destruct (includes (getInteractionLayerIds imports tt)
                            (id lyr)) eqn:Eh];
             destruct (originalEvent e); cbn in Hin;
             intuition (try discriminate);
             match goal with
             | H : ShowDetailedInfo _ = ShowDetailedInfo _ |- _ =>
                 injection H as <-
             end; auto.
      * destruct (unresolved_layer_click _ _ props imports e st feature
                    Hreach Htop) as (_ & _ & Heff).
        { rewrite Hlayer. exact I. }
        rewrite Heff in Hin. cbn in Hin. intuition discriminate.
    + destruct (no_feature_click _ _ props imports e st Hreach Htop)
        as (_ & _ & Hall).
      rewrite forallb_forall in Hall. apply Hall in Hin. discriminate.
  - destruct (unreached_click _ _ props imports e st Hreach) as [Heff | Heff];
      rewrite Heff in Hin; cbn in Hin; intuition discriminate.
Qed.

(** X4. When the topmost feature's layer id is not a building layer and
    the callback is invoked, the layer id is a historical one and the
    record is the historical extractor's with its coordinates replaced by
    those of the feature's point geometry, or by the click's longitude and
    latitude for any other geometry. *)
Theorem historical_click_coordinates
  (e : MapMouseEvent) (st : PanelState) (feature : Feature Properties)
  (lyr : Layer) (info : LocationInfo Metadata) :
  topmostFeature props imports e = Some feature ->
  layer feature = Some lyr ->
  includes (unclusteredLayerIds imports) (id lyr) = false ->
  In (ShowDetailedInfo info) (clickEffects props imports e st) ->
  includes (getInteractionLayerIds imports tt) (id lyr) = true
  /\ metadata info = metadata (getHistoricalLocationInfo imports feature)
  /\ coordinates info =
       Some (match geometry feature with
             | Some (Geom_Point c) => c
             | _ => [lng (lngLat e); lat (lngLat e)]
             end).
Proof.
  intros Htop Hlayer Hb Hfired.
  destruct (callback_fired_inv e st info Hfired)
    as (f & l & cb & _ & _ & Htop' & Hl & _ & Hcase).
  rewrite Htop in Htop'. injection Htop' as <-.
  rewrite Hlayer in Hl. injection Hl as <-.
  destruct Hcase as [[Hb' _] | (_ & Hh & ->)]; [congruence |].
  unfold displayCoordinates. cbn. auto.
Qed.

(** X5. The callback is the last thing a click does.  When it is invoked,
    the trace of the click is: the spatial query, [preventDefault] and
    the calls on the native event, one extractor call on the topmost
    feature, the callback; and the handler returns [false]. *)
Theorem callback_comes_last
  (e : MapMouseEvent) (st : PanelState) (info : LocationInfo Metadata) :
  In (ShowDetailedInfo info) (clickEffects props imports e st) ->
  exists feature extraction,
    topmostFeature props imports e = Some feature
    /\ (extraction = GetBuildingLocationInfo feature
        \/ extraction = GetHistoricalLocationInfo feature)
    /\ clickEffects props imports e st =
         QueryRenderedFeatures (point e) (interactiveLayerIds imports)
         :: PreventDefault
         :: nativeClaims e ++ [extraction; ShowDetailedInfo info]
    /\ clickReturn props imports e st = Returned (Some false).
Proof.
  intros Hfired.
  destruct (callback_fired_inv e st info Hfired)
    as (f & l & cb & Hreach & Hcb & Htop & Hl & Hid & Hcase).
  pose proof (classified_click _ _ props imports e st f l cb
                Hreach Hcb Htop Hl Hid) as Hrun.
  cbn zeta in Hrun. unfold clickEffects, clickReturn.
  destruct Hcase as [[Hb ->] | (Hb & Hh & ->)].
  - rewrite Hb in Hrun. rewrite Hrun.
    exists f, (GetBuildingLocationInfo f). cbn. auto.
  - rewrite Hb, Hh in Hrun. rewrite Hrun.
    exists f, (GetHistoricalLocationInfo f). cbn. auto.
Qed.

(** X6. What a click leaves in the panel store: on the panel-expand
    branch the store with [isFullscreen] and [showOverview] set and
    [isOpen] as it was; on the success branch whatever the callback made
    of the store the click found; on every other branch, the warning
    branch included, the store the click found. *)
Theorem click_panel_store (e : MapMouseEvent) (st : PanelState) :
  match branch_of props imports e st with
  | PanelExpand =>
      clickPanel props imports e st
      = {| isOpen := isOpen st; isFullscreen := true; showOverview := true |}
  | Success =>
      exists callback info,
        onShowDetailedInfo props = Some callback
        /\ In (ShowDetailedInfo info) (clickEffects props imports e st)
        /\ clickPanel props imports e st = callback info st
  | _ => clickPanel props imports e st = st
  end.
Proof.
  click_cases; try reflexivity;
    try (unfold apply_patch, merge_field; cbn; congruence);
    do 2 eexists; (split; [reflexivity |]); (split; [| reflexivity]);
    cbn; auto 10.
Qed.

(** A click on a fullscreen panel never takes the panel-expand branch. *)
Lemma fullscreen_panel_not_expanded (e : MapMouseEvent) (st : PanelState) :
  isFullscreen st = true ->
  branch_of props imports e st <> PanelExpand
  /\ existsb (@is_store_write _ _) (clickEffects props imports e st) = false.
Proof.
  destruct st as [o f v]. cbn [isFullscreen]. intros ->.
  click_cases; split; try reflexivity; discriminate.
Qed.

(** X7. Expanding the panel is not repeated: after a click that took the
    panel-expand branch, the store is such that the next click, wherever
    it falls, passes on to the feature query and writes nothing to the
    store by itself. *)
Theorem expanded_panel_lets_next_click_through
  (e e' : MapMouseEvent) (st : PanelState) :
  branch_of props imports e st = PanelExpand ->
  let st' := clickPanel props imports e st in
  reachesFeatureQuery props imports st' = true
  /\ branch_of props imports e' st' <> PanelExpand
  /\ existsb (@is_store_write _ _) (clickEffects props imports e' st') = false.
Proof.
  intros Hbranch st'.
  assert (Hfull : isFullscreen st' = true /\
                  reachesFeatureQuery props imports st' = true).
  { subst st'. revert Hbranch. click_cases; intros; try discriminate;
      split; cbn; rewrite ?andb_false_r; reflexivity. }
  destruct Hfull as [Hfull Hreach].
  split; [exact Hreach |].
  apply fullscreen_panel_not_expanded. exact Hfull.
Qed.

(** X8. Only the first feature of the query result counts: two maps that
    agree on style readiness and zoom and whose results at the click
    point begin with the same feature (or are both empty) make the
    handler do exactly the same. *)
Theorem only_topmost_feature_matters
  (m1 m2 : MapInstance Properties)
  (callback : option (DetailCallback Metadata)) (minZoom : option number)
  (e : MapMouseEvent) (st : PanelState) :
  isStyleLoaded m1 = isStyleLoaded m2 ->
  getZoom m1 = getZoom m2 ->
  hd_error (queryRenderedFeatures m1 (point e) (interactiveLayerIds imports))
  = hd_error (queryRenderedFeatures m2 (point e)
                (interactiveLayerIds imports)) ->
  runClick {| mapInstance := Some m1;
              onShowDetailedInfo := callback;
              minZoomLevel := minZoom |} imports e st
  = runClick {| mapInstance := Some m2;
                onShowDetailedInfo := callback;
                minZoomLevel := minZoom |} imports e st.
Proof.
  intros Hstyle Hzoom Hhead.
  unfold runClick, handleGlobalClick, queryInteractiveFeatures,
    minZoomLevel_or_default, interactiveLayerIds,
    usePanelStore_getState, usePanelStore_setState, optional_call, log,
    bind, ret, get, modify in *.
  cbn [mapInstance onShowDetailedInfo minZoomLevel].
  rewrite Hstyle, Hzoom.
  destruct (queryRenderedFeatures m1 (point e)
              (unclusteredLayerIds imports ++ getInteractionLayerIds imports tt))
    as [| f1 rest1];
    destruct (queryRenderedFeatures m2 (point e)
                (unclusteredLayerIds imports ++
                 getInteractionLayerIds imports tt))
      as [| f2 rest2];
    cbn in Hhead; try discriminate.
  - reflexivity.
  - injection Hhead as ->.
    repeat (break_match; cbn; try reflexivity).
Qed.



Lemma leb_nan_right (z : number) : PrimFloat.leb z nan = false.
Proof.
  rewrite leb_spec.
  replace (Prim2SF nan) with S754_nan by reflexivity.
  unfold SFleb, SFcompare. destruct (Prim2SF z); reflexivity.
Qed.

Lemma leb_nan_left (z : number) : PrimFloat.leb nan z = false.
Proof.
  rewrite leb_spec.
  replace (Prim2SF nan) with S754_nan by reflexivity.
  reflexivity.
Qed.

(** X13. The threshold test is [currentZoom <= minZoomLevel], which is
    false as soon as one side is NaN.  With a NaN threshold, or a NaN
    zoom, the zoom gate is therefore left to the policy predicate alone:
    if that approves, the click goes through whatever the zoom, and an
    open, non-fullscreen panel is expanded. *)
Theorem nan_threshold_opens_zoom_gate
  (e : MapMouseEvent) (st : PanelState)
  (m : MapInstance Properties) (callback : DetailCallback Metadata) :
  mapInstance props = Some m ->
  onShowDetailedInfo props = Some callback ->
  isStyleLoaded m = true ->
  canInteract imports (getZoom m) "minZoomForLabelClicks" = true ->
  minZoomLevel props = Some nan \/ getZoom m = nan ->
  branch_of props imports e st <> ZoomGateFailed
  /\ reachesFeatureQuery props imports st
     = negb (isOpen st && negb (isFullscreen st))
  /\ (isOpen st = true -> isFullscreen st = false ->
      clickEffects props imports e st = [PanelSetState expandPatch]).
Proof.
  intros Hmap Hcb Hstyle Hcan Hnan.
  assert (Hleb : PrimFloat.leb (getZoom m) (minZoomLevel_or_default props)
                 = false).
  { unfold minZoomLevel_or_default.
    destruct Hnan as [-> | ->]; [apply leb_nan_right | apply leb_nan_left]. }
  unfold branch_of, reachesFeatureQuery, zoomQualifies.
  rewrite Hmap, Hcb, Hstyle, Hcan, Hleb. cbn.
  split; [| split].
  - repeat (break_match; cbn; try discriminate).
  - reflexivity.
  - intros Hopen Hfull. unfold_click.
    rewrite Hmap, Hcb, Hstyle, Hcan, Hleb. cbn.
    rewrite Hopen, Hfull. reflexivity.
Qed.

(** X14. The event is claimed exactly by the clicks that get to a topmost
    feature with a non-empty layer id; a click stopped earlier, or one
    that hits nothing, calls nothing on the event.  A claiming click calls
    [preventDefault] on the map event and, when the map event carries a
    native event, the three calls on that, once each and in this order. *)
Theorem event_claimed_iff_layer_resolved (e : MapMouseEvent) (st : PanelState) :
  (existsb (@is_claim _ _) (clickEffects props imports e st) = true
   <-> reachesFeatureQuery props imports st = true
       /\ exists feature lyr,
            topmostFeature props imports e = Some feature
            /\ layer feature = Some lyr
            /\ String.eqb (id lyr) "" = false)
  /\ (existsb (@is_claim _ _) (clickEffects props imports e st) = true ->
      filter (@is_claim _ _) (clickEffects props imports e st)
      = PreventDefault :: nativeClaims e).
Proof.
  destruct (reachesFeatureQuery props imports st) eqn:Hreach.
  - destruct (reaches_has_callback _ _ props imports st Hreach)
      as [callback Hcb].
    destruct (topmostFeature props imports e) as [feature |] eqn:Htop.
    + destruct (layer feature) as [lyr |] eqn:Hlayer.
      * destruct (String.eqb (id lyr) "") eqn:Hid.
        -- destruct (unresolved_layer_click _ _ props imports e st feature
                       Hreach Htop) as (_ & _ & Heff).
           { rewrite Hlayer. exact Hid. }
           rewrite Heff. cbn. split; [split |]; try discriminate.
           intros (_ & f & l & Hf & Hl & Hne).
           injection Hf as <-. rewrite Hlayer in Hl. injection Hl as <-.
           congruence.
        -- pose proof (classified_click _ _ props imports e st feature lyr
                         callback Hreach Hcb Htop Hlayer Hid) as Hrun.
           cbn zeta in Hrun. unfold clickEffects. rewrite Hrun.
           unfold nativeClaims.
           destruct (includes (unclusteredLayerIds imports) (id lyr));
             [| destruct (includes (getInteractionLayerIds imports tt)
                            (id lyr))];
             destruct (originalEvent e); cbn;
             (split; [split; [| reflexivity] | reflexivity]);
             intros _; (split; [reflexivity |]);
             exists feature, lyr; auto.
      * destruct (unresolved_layer_click _ _ props imports e st feature
                    Hreach Htop) as (_ & _ & Heff).
        { rewrite Hlayer. exact I. }
        rewrite Heff. cbn. split; [split |]; try discriminate.
        intros (_ & f & l & Hf & Hl & _).
        injection Hf as <-. rewrite Hlayer in Hl. discriminate.
    + destruct (no_feature_click _ _ props imports e st Hreach Htop)
        as (_ & _ & Hall).
      assert (Hnone : existsb (@is_claim _ _)
                        (clickEffects props imports e st) = false).
      { destruct (existsb (@is_claim _ _) (clickEffects props imports e st))
          eqn:Hex; [| reflexivity].
        apply existsb_exists in Hex as (ev & Hin & Hclaim).
        rewrite forallb_forall in Hall. apply Hall in Hin.
        destruct ev; discriminate. }
      rewrite Hnone. split; [split |]; try discriminate.
      intros (_ & f & l & Hf & _). discriminate.
  - destruct (unreached_click _ _ props imports e st Hreach) as [Heff | Heff];
      rewrite Heff; cbn; (split; [split |]); try discriminate;
      intros (Hcontra & _); discriminate.
Qed.

End ClickCoverage.

(** ** More about registration and teardown *)

Module RegistrationCoverage.

Import Registration RegistrationView.

Ltac unfold_reg :=
  unfold cleanup, effect, registerEvents, styleLoadCallback, off_click,
    on_click, once_style_load, console_write, set_hasRegisteredRef,
    try_catch, throw, bind, ret, get, modify in *.

Lemma remove_added_listener (h : Handler) (l : list Handler) :
  remove_listener h (add_listener h l) = remove_listener h l.
Proof.
  unfold add_listener.
  destruct (existsb (Nat.eqb h) l); [reflexivity |].
  unfold remove_listener. rewrite filter_app. cbn.
  rewrite Nat.eqb_refl. cbn. apply app_nil_r.
Qed.

Lemma remove_absent_listener (h : Handler) (l : list Handler) :
  ~ In h l -> remove_listener h l = l.
Proof.
  unfold remove_listener. induction l as [| a l IH]; intros Hnot.
  - reflexivity.
  - cbn. destruct (Nat.eqb a h) eqn:E.
    + apply Nat.eqb_eq in E. subst. exfalso. apply Hnot. left. reflexivity.
    + cbn. rewrite IH; [reflexivity |].
      intros Hin. apply Hnot. right. exact Hin.
Qed.

(** X10. Registering on a ready map and cleaning up at once is a round
    trip: it returns, the ref is false again, the handler is not among
    the map's click listeners, every other listener is where it was (so
    the table is unchanged when the handler was not attached before), and
    the other maps are untouched. *)
Theorem register_then_cleanup_round_trip
  (m : MapRef) (h : Handler) (w : World) :
  hasRegisteredRef w = false ->
  isStyleLoaded (maps w m) = true ->
  offThrows (maps w m) = None ->
  exists w',
    registerThenCleanup m h w = (Returned tt, w')
    /\ hasRegisteredRef w' = false
    /\ clickListeners (maps w' m) = remove_listener h (clickListeners (maps w m))
    /\ (~ In h (clickListeners (maps w m)) ->
        clickListeners (maps w' m) = clickListeners (maps w m))
    /\ (forall m', m' <> m -> maps w' m' = maps w m').
Proof.
  intros Hflag Hstyle Hoff.
  unfold registerThenCleanup. unfold_reg.
  rewrite Hflag, Hstyle. cbn. rewrite Nat.eqb_refl. cbn. rewrite Hoff.
  eexists. split; [reflexivity |]. cbn. rewrite Nat.eqb_refl. cbn.
  split; [reflexivity |].
  split; [apply remove_added_listener |].
  split.
  - intros Hnot.
    etransitivity; [apply remove_added_listener |].
    apply remove_absent_listener. exact Hnot.
  - intros m' Hne. apply Nat.eqb_neq in Hne. rewrite Hne. reflexivity.
Qed.

(** X11. Deferred registration: on a map whose style is still loading and
    that has no other subscription pending, the effect attaches nothing
    by itself; when "style.load" fires the handler is attached and the
    ref set, and a further "style.load" finds no subscription left and
    changes neither the listeners nor the ref. *)
Theorem deferred_registration_completes
  (m : MapRef) (h : Handler) (w : World) :
  hasRegisteredRef w = false ->
  isStyleLoaded (maps w m) = false ->
  styleLoadOnce (maps w m) = [] ->
  exists w1 w2 w3,
    effect (Some m) h w = (Returned (Some (m, h)), w1)
    /\ clickListeners (maps w1 m) = clickListeners (maps w m)
    /\ hasRegisteredRef w1 = false
    /\ fire_style_load m w1 = (Returned tt, w2)
    /\ clickListeners (maps w2 m) = add_listener h (clickListeners (maps w m))
    /\ hasRegisteredRef w2 = true
    /\ fire_style_load m w2 = (Returned tt, w3)
    /\ clickListeners (maps w3 m) = clickListeners (maps w2 m)
    /\ hasRegisteredRef w3 = true.
Proof.
  intros Hflag Hstyle Honce.
  assert (Hmm : Nat.eqb m m = true) by apply Nat.eqb_refl.
  unfold fire_style_load. unfold_reg.
  rewrite Hflag, Hstyle.
  eexists. eexists. eexists.
  split; [reflexivity |]. cbn. rewrite !Hmm. cbn.
  rewrite Honce. cbn.
  split; [reflexivity |]. split; [exact Hflag |].
  split; [reflexivity |]. cbn. rewrite !Hmm. cbn.
  split; [reflexivity |]. split; [reflexivity |].
  split; [reflexivity |]. cbn. rewrite !Hmm. cbn.
  split; reflexivity.
Qed.

Lemma cleanup_on_ready (m : MapRef) (h : Handler) (w : World) :
  allReady w ->
  hasRegisteredRef w = true ->
  exists w',
    cleanup m h w = (Returned tt, w')
    /\ allReady w'
    /\ hasRegisteredRef w' = false
    /\ forall m',
         clickListeners (maps w' m') =
         if Nat.eqb m' m then remove_listener h (clickListeners (maps w m'))
         else clickListeners (maps w m').
Proof.
  intros Hready Hflag.
  destruct (Hready m) as (_ & _ & Hoff).
  unfold_reg. rewrite Hflag, Hoff.
  eexists. split; [reflexivity |]. cbn.
  split; [| split; [reflexivity |]].
  - intros m'. cbn. destruct (Hready m') as (H1 & H2 & H3).
    destruct (Nat.eqb m' m); cbn; auto.
  - intros m'. destruct (Nat.eqb m' m); reflexivity.
Qed.

Lemma effect_on_ready (m : MapRef) (h : Handler) (w : World) :
  allReady w ->
  hasRegisteredRef w = false ->
  exists w',
    effect (Some m) h w = (Returned (Some (m, h)), w')
    /\ allReady w'
    /\ hasRegisteredRef w' = true
    /\ forall m',
         clickListeners (maps w' m') =
         if Nat.eqb m' m then add_listener h (clickListeners (maps w m'))
         else clickListeners (maps w m').
Proof.
  intros Hready Hflag.
  destruct (Hready m) as (Hstyle & _ & _).
  unfold_reg. rewrite Hflag, Hstyle.
  eexists. split; [reflexivity |]. cbn.
  split; [| split; [reflexivity |]].
  - intros m'. cbn. destruct (Hready m') as (H1 & H2 & H3).
    destruct (Nat.eqb m' m); cbn; auto.
  - intros m'. destruct (Nat.eqb m' m); reflexivity.
Qed.

Lemma style_load_on_ready (m : MapRef) (w : World) :
  allReady w ->
  exists w',
    fire_style_load m w = (Returned tt, w')
    /\ allReady w'
    /\ hasRegisteredRef w' = hasRegisteredRef w
    /\ forall m', clickListeners (maps w' m') = clickListeners (maps w m').
Proof.
  intros Hready.
  destruct (Hready m) as (_ & Honce & _).
  unfold fire_style_load. unfold_reg. rewrite Honce. cbn.
  eexists. split; [reflexivity |]. cbn.
  split; [| split; [reflexivity |]].
  - intros m'. cbn. destruct (Hready m') as (H1 & H2 & H3).
    destruct (Nat.eqb m' m); cbn; auto.
  - intros m'. destruct (Nat.eqb m' m); reflexivity.
Qed.

Lemma run_pending_on_settled (c : Component) (w : World) :
  settled c w ->
  exists w',
    run_pending c w = (Returned tt, w')
    /\ allReady w'
    /\ hasRegisteredRef w' = false
    /\ forall m, clickListeners (maps w' m) = [].
Proof.
  intros (Hready & Hpending & Hflag & Hlisteners).
  unfold run_pending. rewrite Hpending.
  destruct (deps c) as [[[m0 |] h0] |]; cbn in *.
  - destruct (cleanup_on_ready m0 h0 w Hready Hflag)
      as (w' & Hrun & Hready' & Hflag' & Hl').
    exists w'. repeat split; try assumption; try apply Hready'.
    intros m. rewrite Hl', Hlisteners.
    destruct (Nat.eqb m m0); [| reflexivity].
    unfold remove_listener. cbn. rewrite Nat.eqb_refl. reflexivity.
  - exists w. repeat split; try assumption; apply Hready.
  - exists w. repeat split; try assumption; apply Hready.
Qed.

Lemma same_deps_eq (d1 d2 : option MapRef * Handler) :
  same_deps d1 d2 = true -> d1 = d2.
Proof.
  destruct d1 as [[m1 |] h1], d2 as [[m2 |] h2]; unfold same_deps;
    cbn [fst snd]; intros H.
  - apply andb_true_iff in H as [Hm Hh].
    apply Nat.eqb_eq in Hm. apply Nat.eqb_eq in Hh. subst. reflexivity.
  - cbn in H. discriminate.
  - cbn in H. discriminate.
  - cbn in H. apply Nat.eqb_eq in H. subst. reflexivity.
Qed.

Lemma step_keeps_settled (st : Step) (c : Component) (w : World) :
  settled c w ->
  exists c' w',
    step st c w = (Returned c', w')
    /\ settled c' w'
    /\ deps c' = lastDeps [st] (deps c).
Proof.
  intros Hsettled.
  destruct st as [mapInstance h | | m]; cbn [step lastDeps].
  - unfold render.
    destruct (match deps c with
              | Some d => same_deps d (mapInstance, h)
              | None => false
              end) eqn:Hsame.
    + exists c, w. split; [reflexivity |]. split; [exact Hsettled |].
      destruct (deps c) as [d |]; [| discriminate].
      apply same_deps_eq in Hsame. subst. reflexivity.
    + destruct (run_pending_on_settled c w Hsettled)
        as (w1 & Hrun1 & Hready1 & Hflag1 & Hl1).
      unfold bind at 1. rewrite Hrun1.
      destruct mapInstance as [m |].
      * destruct (effect_on_ready m h w1 Hready1 Hflag1)
          as (w2 & Hrun2 & Hready2 & Hflag2 & Hl2).
        unfold bind. rewrite Hrun2. unfold ret.
        do 2 eexists. split; [reflexivity |]. split; [| reflexivity].
        split; [exact Hready2 |]. cbn.
        split; [reflexivity |]. split; [exact Hflag2 |].
        intros m'. rewrite Hl2, Hl1.
        destruct (Nat.eqb m' m); reflexivity.
      * unfold bind, effect, get, ret.
        do 2 eexists. split; [reflexivity |]. split; [| reflexivity].
        split; [exact Hready1 |]. cbn.
        split; [reflexivity |]. split; [exact Hflag1 |]. exact Hl1.
  - unfold unmount.
    destruct (run_pending_on_settled c w Hsettled)
      as (w1 & Hrun1 & Hready1 & Hflag1 & Hl1).
    unfold bind. rewrite Hrun1. unfold ret.
    do 2 eexists. split; [reflexivity |]. split; [| reflexivity].
    split; [exact Hready1 |]. cbn.
    split; [reflexivity |]. split; [exact Hflag1 |]. exact Hl1.
  - destruct Hsettled as (Hready & Hpending & Hflag & Hl).
    destruct (style_load_on_ready m w Hready)
      as (w1 & Hrun1 & Hready1 & Hflag1 & Hl1).
    unfold bind. rewrite Hrun1. unfold ret.
    exists c, w1. split; [reflexivity |]. split; [| reflexivity].
    split; [exact Hready1 |]. split; [exact Hpending |].
    split; [congruence |].
    intros m'. rewrite Hl1. apply Hl.
Qed.

Lemma run_keeps_settled (steps : list Step) :
  forall (c : Component) (w : World),
    settled c w ->
    exists c' w',
      run steps c w = (Returned c', w')
      /\ settled c' w'
      /\ deps c' = lastDeps steps (deps c).
Proof.
  induction steps as [| st rest IH]; intros c w Hsettled.
  - exists c, w. repeat split; try apply Hsettled.
  - destruct (step_keeps_settled st c w Hsettled)
      as (c1 & w1 & Hstep & Hsettled1 & Hdeps1).
    destruct (IH c1 w1 Hsettled1) as (c2 & w2 & Hrun & Hsettled2 & Hdeps2).
    exists c2, w2. cbn [run]. unfold bind. rewrite Hstep.
    split; [exact Hrun |]. split; [exact Hsettled2 |].
    rewrite Hdeps2, Hdeps1.
    destruct st; reflexivity.
Qed.

(** X12. On maps that are ready (style loaded, nothing pending, a detach
    that does not throw) the coordinator keeps its invariant through any
    sequence of renders, unmounts and "style.load" events: it never
    throws, and afterwards the only click listener anywhere is the
    handler of the render in force, on that render's map; there is none
    after unmounting or while the map instance is null.  The ref says
    whether there is one. *)
Theorem ready_maps_carry_one_listener (steps : list Step) (w : World) :
  allReady w ->
  hasRegisteredRef w = false ->
  (forall m, clickListeners (maps w m) = []) ->
  exists c' w',
    run steps unmounted w = (Returned c', w')
    /\ hasRegisteredRef w' = registeredFor (lastDeps steps None)
    /\ forall m,
         clickListeners (maps w' m) = listenersFor (lastDeps steps None) m
         /\ List.length (clickListeners (maps w' m)) <= 1.
Proof.
  intros Hready Hflag Hnone.
  assert (Hsettled : settled unmounted w).
  { split; [exact Hready |]. cbn. auto. }
  destruct (run_keeps_settled steps unmounted w Hsettled)
    as (c' & w' & Hrun & (_ & _ & Hflag' & Hl') & Hdeps).
  exists c', w'. cbn in Hdeps. rewrite Hdeps in *.
  split; [exact Hrun |]. split; [exact Hflag' |].
  intros m. split; [apply Hl' |].
  rewrite Hl'. unfold listenersFor.
  destruct (lastDeps steps None) as [[[m0 |] h0] |]; cbn; auto.
  destruct (Nat.eqb m m0); cbn; auto.
Qed.

(** X15. Tearing down before the style has loaded does not cancel the
    deferred registration.  On a map whose style is still loading, the
    effect followed by its cleanup leaves the one-shot subscription in
    place; when "style.load" fires afterwards the handler is attached and
    the ref set to true, although the cleanup has run. *)
Theorem cleanup_does_not_cancel_deferred_registration
  (m : MapRef) (h : Handler) (w : World) :
  hasRegisteredRef w = false ->
  isStyleLoaded (maps w m) = false ->
  styleLoadOnce (maps w m) = [] ->
  exists w1 w2,
    registerThenCleanup m h w = (Returned tt, w1)
    /\ styleLoadOnce (maps w1 m) = [h]
    /\ clickListeners (maps w1 m) = clickListeners (maps w m)
    /\ hasRegisteredRef w1 = false
    /\ registerCleanupThenLoad m h w = (Returned tt, w2)
    /\ clickListeners (maps w2 m) = add_listener h (clickListeners (maps w m))
    /\ hasRegisteredRef w2 = true.
Proof.
  intros Hflag Hstyle Honce.
  assert (Hmm : Nat.eqb m m = true) by apply Nat.eqb_refl.
  unfold registerCleanupThenLoad, registerThenCleanup, fire_style_load.
  unfold_reg. rewrite Hflag, Hstyle. cbn. rewrite Hflag. cbn.
  eexists. eexists.
  split; [reflexivity |]. cbn. rewrite !Hmm. cbn. rewrite Honce. cbn.
  split; [reflexivity |]. split; [reflexivity |]. split; [reflexivity |].
  split; [reflexivity |]. cbn. rewrite !Hmm. cbn.
  split; reflexivity.
Qed.

End RegistrationCoverage.

(** ** The further scenarios, run *)

Module CoverageFacts.

Import Scenario Scenario2.
Import Registration RegistrationView RegistrationCoverage.


Lemma readyWorld_allReady : allReady readyWorld.
Proof. intros m. repeat split; reflexivity. Qed.

(** With the panel half open and no map, nothing happens. *)
Lemma unready_click_does_nothing_witness :
  runClick noMap (importsWith [historicalLayer]) click halfOpenPanel
  = (Returned None, {| panel := halfOpenPanel; trace := [] |}).
Proof.
  exact (unready_click_does_nothing string string noMap
           (importsWith [historicalLayer]) click halfOpenPanel
           (or_introl eq_refl)).
Defined.

Lemma click_query_arguments_witness :
  [buildingLayer; historicalLayer] <> []
  /\ reachesFeatureQuery (propsAt 18%float [marker])
       (importsWith [historicalLayer]) closedPanel = true.
Proof.
  assert (Hin : In (QueryRenderedFeatures (point click)
                      [buildingLayer; historicalLayer])
                   (clickEffects (propsAt 18%float [marker])
                      (importsWith [historicalLayer]) click closedPanel)).
  { cbv. left. reflexivity. }
  destruct (click_query_arguments string string
              (propsAt 18%float [marker]) (importsWith [historicalLayer])
              click closedPanel (point click)
              [buildingLayer; historicalLayer] Hin)
    as (_ & _ & Hne & Hreach).
  exact (conj Hne Hreach).
Defined.

(** A click on the footprint: the historical record, at the place of the
    click. *)
Lemma historical_click_coordinates_witness :
  coordinates
    (set_coordinates
       (getHistoricalLocationInfo (importsWith [historicalLayer]) footprint)
       [lng (lngLat click); lat (lngLat click)])
  = Some [12.4964%float; 41.9028%float].
Proof.
  refine (proj2 (proj2 (historical_click_coordinates string string
            (propsAt 18%float [footprint]) (importsWith [historicalLayer])
            click closedPanel footprint {| id := historicalLayer |} _
            eq_refl eq_refl eq_refl _))).
  cbv. do 6 right. left. reflexivity.
Defined.

Lemma callback_comes_last_witness :
  clickReturn (propsAt 18%float [marker]) (importsWith [historicalLayer])
              click closedPanel
  = Returned (Some false).
Proof.
  assert (Hin : In (ShowDetailedInfo
                      (set_coordinates
                         (getBuildingLocationInfo
                            (importsWith [historicalLayer]) marker)
                         [12.5%float; 41.9%float]))
                   (clickEffects (propsAt 18%float [marker])
                      (importsWith [historicalLayer]) click closedPanel)).
  { cbv. do 6 right. left. reflexivity. }
  destruct (callback_comes_last string string
              (propsAt 18%float [marker]) (importsWith [historicalLayer])
              click closedPanel _ Hin)
    as (f & x & _ & _ & _ & Hret).
  exact Hret.
Defined.

Lemma expanded_panel_lets_next_click_through_witness :
  reachesFeatureQuery (propsAt 18%float [marker])
    (importsWith [historicalLayer])
    (clickPanel (propsAt 18%float [marker]) (importsWith [historicalLayer])
                click halfOpenPanel)
  = true.
Proof.
  exact (proj1 (expanded_panel_lets_next_click_through string string
                  (propsAt 18%float [marker]) (importsWith [historicalLayer])
                  click click halfOpenPanel eq_refl)).
Defined.

Lemma only_topmost_feature_matters_witness :
  runClick (propsAt 18%float [marker; roadLabel])
           (importsWith [historicalLayer]) click closedPanel
  = runClick (propsAt 18%float [marker])
             (importsWith [historicalLayer]) click closedPanel.
Proof.
  exact (only_topmost_feature_matters string string
           (importsWith [historicalLayer])
           (mapAt 18%float [marker; roadLabel]) (mapAt 18%float [marker])
           (Some openPanel) None click closedPanel
           eq_refl eq_refl eq_refl).
Defined.


Lemma nan_threshold_opens_zoom_gate_witness :
  clickEffects propsWithNaNThreshold (importsWith [historicalLayer])
               click halfOpenPanel
  = [PanelSetState expandPatch].
Proof.
  exact (proj2 (proj2 (nan_threshold_opens_zoom_gate string string
                  propsWithNaNThreshold (importsWith [historicalLayer])
                  click halfOpenPanel (mapAt 3%float [marker]) openPanel
                  eq_refl eq_refl eq_refl eq_refl (or_introl eq_refl)))
               eq_refl eq_refl).
Defined.

Lemma register_then_cleanup_round_trip_witness :
  exists w',
    registerThenCleanup 0 1 readyWorld = (Returned tt, w')
    /\ hasRegisteredRef w' = false
    /\ clickListeners (maps w' 0) = [].
Proof.
  destruct (register_then_cleanup_round_trip 0 1 readyWorld
              eq_refl eq_refl eq_refl)
    as (w' & Hrun & Hflag & Hl & _).
  exists w'. exact (conj Hrun (conj Hflag Hl)).
Defined.

Lemma deferred_registration_completes_witness :
  exists w1 w2,
    effect (Some 0) 1 loadingWorld = (Returned (Some (0, 1)), w1)
    /\ fire_style_load 0 w1 = (Returned tt, w2)
    /\ clickListeners (maps w2 0) = [1].
Proof.
  destruct (deferred_registration_completes 0 1 loadingWorld
              eq_refl eq_refl eq_refl)
    as (w1 & w2 & w3 & Heff & _ & _ & Hfire & Hl & _).
  exists w1, w2. exact (conj Heff (conj Hfire Hl)).
Defined.

(** Two renders with different handlers on one map, then a move to
    another map: one listener, on the second map. *)
Lemma ready_maps_carry_one_listener_witness :
  exists c' w',
    run [Render (Some 0) 1; Render (Some 0) 2; StyleLoad 0; Render (Some 1) 3]
        unmounted readyWorld
    = (Returned c', w')
    /\ clickListeners (maps w' 0) = []
    /\ clickListeners (maps w' 1) = [3].
Proof.
  destruct (ready_maps_carry_one_listener
              [Render (Some 0) 1; Render (Some 0) 2; StyleLoad 0;
               Render (Some 1) 3]
              readyWorld readyWorld_allReady eq_refl (fun _ => eq_refl))
    as (c' & w' & Hrun & _ & Hl).
  exists c', w'.
  exact (conj Hrun (conj (proj1 (Hl 0)) (proj1 (Hl 1)))).
Defined.

Lemma cleanup_does_not_cancel_deferred_registration_witness :
  exists w2,
    registerCleanupThenLoad 0 1 loadingWorld = (Returned tt, w2)
    /\ clickListeners (maps w2 0) = [1]
    /\ hasRegisteredRef w2 = true.
Proof.
  destruct (cleanup_does_not_cancel_deferred_registration 0 1 loadingWorld
              eq_refl eq_refl eq_refl)
    as (w1 & w2 & _ & _ & _ & _ & Hrun & Hl & Hflag).
  exists w2. exact (conj Hrun (conj Hl Hflag)).
Defined.

End CoverageFacts.
